(** * Cache-aside property listing: a shallow embedding

    The development embeds the caching subsystem of the property-listing
    application: the cache-aside accessor [get_all_properties]
    (properties/utils.py), the two signal handlers that invalidate the cached
    collection (properties/signals.py), the metrics reporter
    [get_redis_cache_metrics] (properties/utils.py) and the metrics endpoint
    [cache_metrics] (properties/views.py).

    Python code with effects is written in a state-and-exception monad over a
    [world] that holds the Django cache, the database table, the Redis server
    statistics and a chronological trace of the observable operations.
    Python floats are IEEE binary64 values, taken from the standard library's
    executable specification [SpecFloat]. *)

From Stdlib Require Import ZArith Lia Bool List Ascii String.
From Stdlib Require Import SpecFloat.
From stdpp Require Import gmap strings list pretty.

Local Open Scope Z_scope.

(** ** Python exceptions and results *)

(** The exception classes that the collaborators of this code raise; all of
    them derive from Python's [Exception]. *)
Inductive exn_class :=
  | ConnectionError
  | TimeoutError
  | ResponseError
  | DatabaseError
  | ZeroDivisionError
  | OverflowError.

Record exn := Exn { exn_cls : exn_class; exn_msg : string }.

(** [str(e)] *)
Definition str_exn (e : exn) : string := exn_msg e.

Inductive result (A : Type) :=
  | Ok (a : A)
  | Raise (e : exn).
Arguments Ok {A} a.
Arguments Raise {A} e.

(** ** Python floats: IEEE binary64 *)

Module PyFloat.

Definition prec : Z := 53.
Definition emax : Z := 1024.

Definition float := spec_float.

Definition zero : float := S754_zero false.
Definition one : float := S754_finite false 4503599627370496 (-52).

(** [float(n)] for an integer that converts exactly or by rounding; an
    integer too large for a float raises. *)
Definition of_int (n : Z) : result float :=
  match binary_normalize prec emax n 0 false with
  | S754_infinity _ => Raise (Exn OverflowError "int too large to convert to float")
  | f => Ok f
  end.

(** The literals of the source, as the parser reads them: the binary64
    values nearest to 0.9, 0.7 and 0.5, and 100.0. *)
Definition lit_0_9 : float := S754_finite false 8106479329266893 (-53).
Definition lit_0_7 : float := S754_finite false 6305039478318694 (-53).
Definition lit_0_5 : float := S754_finite false 4503599627370496 (-53).
Definition lit_100 : float := S754_finite false 7036874417766400 (-46).

(** [a / b] on two integers (true division): the quotient rounded to the
    nearest binary64 value, ties to even, whatever the size of the
    operands. A zero divisor and a quotient beyond the largest float
    raise. *)
Definition truediv (a b : Z) : result float :=
  if b =? 0 then Raise (Exn ZeroDivisionError "division by zero")
  else if a =? 0 then Ok (S754_zero (b <? 0))
  else
    let s := xorb (a <? 0) (b <? 0) in
    let '(q, e, l) := SFdiv_core_binary prec emax (Z.abs a) 0 (Z.abs b) 0 in
    match binary_round_aux prec emax s q e l with
    | S754_infinity _ =>
        Raise (Exn OverflowError "integer division result too large for a float")
    | f => Ok f
    end.

(** [x * y] on two floats; in [x * 100] the integer operand is first
    converted, exactly, to [lit_100]. *)
Definition mul (x y : float) : float := SFmul prec emax x y.

(** [x <= y], [x < y], [x >= y] on two floats (false when either is a NaN) *)
Definition leb (x y : float) : bool := SFleb x y.
Definition ltb (x y : float) : bool := SFltb x y.
Definition geb (x y : float) : bool := SFleb y x.

(** Fixed-point formatting, [format(x, '.<d>f')]: the exact binary value
    rounded to [d] decimals, ties to even. *)
Definition round_half_even_div (n d : Z) : Z :=
  let '(q, r) := Z.div_eucl n d in
  match 2 * r ?= d with
  | Lt => q
  | Eq => if Z.even q then q else q + 1
  | Gt => q + 1
  end.

Definition pad_zeros (d : nat) (s : string) : string :=
  String.string_of_list_ascii
    (replicate (d - String.length s)%nat "0"%char) +:+ s.

Definition format_scaled (d : nat) (sign : bool) (n : Z) : string :=
  let unit := 10 ^ Z.of_nat d in
  (if sign then "-" else "") +:+ pretty (n / unit)
    +:+ match d with
        | O => ""
        | _ => "." +:+ pad_zeros d (pretty (n mod unit))
        end.

Definition format_f (d : nat) (x : float) : string :=
  match x with
  | S754_nan => "nan"
  | S754_infinity s => if s then "-inf" else "inf"
  | S754_zero s => format_scaled d s 0
  | S754_finite s m e =>
      let scaled := Z.pos m * 10 ^ Z.of_nat d in
      format_scaled d s
        (if 0 <=? e then scaled * 2 ^ e
         else round_half_even_div scaled (2 ^ (- e)))
  end.

(** Percent formatting, [format(x, '.<d>%')]: the float is multiplied by
    100 as a float, formatted in fixed point and followed by a percent
    sign. *)
Definition format_pct (d : nat) (x : float) : string :=
  format_f d (mul x lit_100) +:+ "%".

(** Where the rational [N / D] lies with respect to the integer [m], as a
    rounding location records it: on [m], in the lower half of the unit
    interval from [m], in its middle, or in its upper half. *)
Definition located (N D m : Z) (l : SpecFloat.location) : Prop :=
  match l with
  | loc_Exact => N = m * D
  | loc_Inexact Lt => m * D < N /\ 2 * N < (2 * m + 1) * D
  | loc_Inexact Eq => 2 * N = (2 * m + 1) * D
  | loc_Inexact Gt => (2 * m + 1) * D < 2 * N /\ N < (m + 1) * D
  end.

(** The mantissa [m] at exponent [e <= 0] is within half a unit of the
    quotient [a / b]: [|m * 2^e - a / b| <= 2^e / 2], without fractions. *)
Definition half_unit_near (a b m e : Z) : Prop :=
  e <= 0 /\ Z.abs (2 * (m * b) - 2 * (a * 2 ^ (- e))) <= b.

(** A float is a nearest binary64 value of the quotient [a / b] of two
    non-negative integers: it is a valid binary64 float (canonical mantissa
    and exponent), and the quotient is within half a unit in the last place
    of it; a zero stands for the mantissa 0 at the least exponent. *)
Definition nearest_of_quotient (a b : Z) (f : float) : Prop :=
  valid_binary prec emax f = true /\
  match f with
  | S754_zero false => half_unit_near a b 0 (-1074)
  | S754_finite false m e => half_unit_near a b (Z.pos m) e
  | _ => False
  end.

(** The float [p] is 100 times the float [r] rounded to binary64, stated on
    the mantissas and exponents, without fractions. For [r = m * 2^e] of
    either sign: [p] is a valid binary64 float [m' * 2^e'] of the same sign
    with [|m' * 2^e' - 100 * m * 2^e| <= 2^e' / 2] (both sides scaled by
    [2^(1 - e)]), or [p] is the infinity of that sign, and then 100 times
    [r] is no less than the largest binary64 value, [(2^53 - 1) * 2^971]. A
    zero keeps its sign; 100 times a number is never a zero or a NaN. *)
Definition rounded_hundredfold (r p : float) : Prop :=
  match r with
  | S754_zero s => p = S754_zero s
  | S754_finite s m e =>
      match p with
      | S754_finite s' m' e' =>
          s' = s /\
          valid_binary prec emax p = true /\
          e <= e' /\
          Z.abs (2 * (Z.pos m' * 2 ^ (e' - e)) - 200 * Z.pos m) <= 2 ^ (e' - e)
      | S754_infinity s' =>
          s' = s /\ (2 ^ 53 - 1) * 2 ^ (971 - e) <= 100 * Z.pos m
      | _ => False
      end
  | _ => False
  end.

(** The float [p] is exactly 100 times the float [r], as numbers:
    [m' * 2^e' = 100 * m * 2^e], both sides scaled by the smaller of the two
    exponents. *)
Definition exact_hundredfold (r p : float) : Prop :=
  match r, p with
  | S754_zero _, S754_zero _ => True
  | S754_finite s m e, S754_finite s' m' e' =>
      s' = s /\
      Z.pos m' * 2 ^ (e' - Z.min e e') = 100 * (Z.pos m * 2 ^ (e - Z.min e e'))
  | _, _ => False
  end.

End PyFloat.

(** ** Data model *)

(** Modelled from the spec: the entity record. properties/models.py is not
    among the sources; the fields are those of the spec's Entity Record
    (identifier, title, description, price, location, creation timestamp), named
    as properties/views.py reads them. The price is the unscaled value of the
    fixed-point decimal, the timestamp a number of seconds. *)
Record Property := {
  id : Z;
  title : string;
  description : string;
  price : Z;
  location : string;
  created_at : Z
}.

(** The Python values that can sit in the cache under a key. [PyNone] is also
    what [cache.get] answers for a key that holds nothing. *)
Inductive pyobj :=
  | PyNone
  | PyInt (n : Z)
  | PyStr (s : string)
  | PyList (l : list Property).

(** ** The world: cache, database, Redis statistics, trace *)

Record cache_entry := { ce_value : pyobj; ce_expires : Z }.

Inductive event :=
  | CacheGet (key : string)
  | CacheSet (key : string) (value : pyobj) (timeout : Z)
  | CacheDelete (key : string)
  | DbSelectAll
  | DbWrite (row : Property)
  | DbRemove (row : Property)
  | RedisConnect (alias : string)
  | RedisInfo
  | Stdout (line : string)
  | LogInfo (logger : string) (line : string)
  | LogError (logger : string) (line : string).

Record world := {
  now : Z;                               (* clock, in seconds *)
  cache_store : gmap string cache_entry; (* the Django cache *)
  cache_fault : option exn;              (* cache backend unreachable *)
  table : list Property;                 (* rows of Property, in query order *)
  db_fault : option exn;                 (* database unreachable *)
  conn_fault : option exn;               (* get_redis_connection fails *)
  info_fault : option exn;               (* the INFO command fails *)
  redis_stats : gmap string Z;           (* integer fields of the INFO reply *)
  trace : list event                     (* operations so far, oldest first *)
}.

Definition emit (ev : event) (w : world) : world :=
  {| now := now w; cache_store := cache_store w; cache_fault := cache_fault w;
     table := table w; db_fault := db_fault w; conn_fault := conn_fault w;
     info_fault := info_fault w; redis_stats := redis_stats w;
     trace := trace w ++ [ev] |}.

Definition with_cache_store (c : gmap string cache_entry) (w : world) : world :=
  {| now := now w; cache_store := c; cache_fault := cache_fault w;
     table := table w; db_fault := db_fault w; conn_fault := conn_fault w;
     info_fault := info_fault w; redis_stats := redis_stats w;
     trace := trace w |}.

Definition with_table (t : list Property) (w : world) : world :=
  {| now := now w; cache_store := cache_store w; cache_fault := cache_fault w;
     table := t; db_fault := db_fault w; conn_fault := conn_fault w;
     info_fault := info_fault w; redis_stats := redis_stats w;
     trace := trace w |}.

(** Time passing between two requests. *)
Definition tick (dt : Z) (w : world) : world :=
  {| now := now w + dt; cache_store := cache_store w;
     cache_fault := cache_fault w; table := table w; db_fault := db_fault w;
     conn_fault := conn_fault w; info_fault := info_fault w;
     redis_stats := redis_stats w; trace := trace w |}.

(** ** The monad of Python code: state and exceptions *)

Definition M (A : Type) : Type := world -> result A * world.

#[global] Instance M_ret : MRet M := fun A a w => (Ok a, w).

#[global] Instance M_bind : MBind M := fun A B f m w =>
  match m w with
  | (Ok a, w') => f a w'
  | (Raise e, w') => (Raise e, w')
  end.

Definition raise {A} (e : exn) : M A := fun w => (Raise e, w).

(** [try: body except Exception as e: handler(e)] *)
Definition try_except {A} (body : M A) (handler : exn -> M A) : M A := fun w =>
  match body w with
  | (Ok a, w') => (Ok a, w')
  | (Raise e, w') => handler e w'
  end.

Definition lift {A} (r : result A) : M A := fun w => (r, w).

Definition do_emit (ev : event) : M unit := fun w => (Ok tt, emit ev w).

(** [print(line)] *)
Definition print (line : string) : M unit := do_emit (Stdout line).

(** ** The collaborators: Django's cache, the ORM, the Redis client *)

(** What the cache holds under [key] at the current time: an entry is gone
    once its expiry time is reached. *)
Definition cache_lookup (key : string) (w : world) : pyobj :=
  match cache_store w !! key with
  | Some ce => if now w <? ce_expires ce then ce_value ce else PyNone
  | None => PyNone
  end.

(** [cache.get(key)] *)
Definition cache_get (key : string) : M pyobj := fun w =>
  let w := emit (CacheGet key) w in
  match cache_fault w with
  | Some e => (Raise e, w)
  | None => (Ok (cache_lookup key w), w)
  end.

(** [cache.set(key, value, timeout)] *)
Definition cache_set (key : string) (value : pyobj) (timeout : Z) : M unit := fun w =>
  let w := emit (CacheSet key value timeout) w in
  match cache_fault w with
  | Some e => (Raise e, w)
  | None =>
      (Ok tt,
       with_cache_store
         (<[key := {| ce_value := value; ce_expires := now w + timeout |}]>
            (cache_store w)) w)
  end.

(** [cache.delete(key)]: answers whether the key was there. *)
Definition cache_delete (key : string) : M bool := fun w =>
  let w := emit (CacheDelete key) w in
  match cache_fault w with
  | Some e => (Raise e, w)
  | None =>
      (Ok (bool_decide (is_Some (cache_store w !! key))),
       with_cache_store (delete key (cache_store w)) w)
  end.

(** A lazy result set: building it touches nothing, [list(...)] runs the
    query. *)
Inductive QuerySet := AllProperties.

(** [Property.objects.all()] *)
Definition Property_objects_all : QuerySet := AllProperties.

(** [list(queryset)] *)
Definition list_queryset (qs : QuerySet) : M (list Property) := fun w =>
  let w := emit DbSelectAll w in
  match db_fault w with
  | Some e => (Raise e, w)
  | None => (Ok (table w), w)
  end.

(** ** properties/utils.py: the cache-aside accessor *)

Definition get_all_properties : M pyobj :=
  properties ← cache_get "all_properties";
  match properties with
  | PyNone =>
      print "Cache MISS: Fetching properties from database...";;
      let properties := Property_objects_all in
      properties ← list_queryset properties;
      cache_set "all_properties" (PyList properties) 3600;;
      print ("Cached " +:+ pretty (length properties) +:+ " properties for 1 hour");;
      mret (PyList properties)
  | _ =>
      print "Cache HIT: Using cached properties (fast!)";;
      mret properties
  end.

(** ** properties/signals.py: the invalidation handlers *)

(** The model class that sends the signals. *)
Inductive model_class := PropertyModel.

Definition invalidate_property_cache_on_save
    (sender : model_class) (instance : Property) (created : bool) : M unit :=
  cache_delete "all_properties";;
  let action : string := if created then "created" else "updated" in
  print ("Cache invalidated: Property '" +:+ title instance +:+ "' was " +:+ action);;
  print "Next request will fetch fresh data from database".

Definition invalidate_property_cache_on_delete
    (sender : model_class) (instance : Property) : M unit :=
  cache_delete "all_properties";;
  print ("Cache invalidated: Property '" +:+ title instance +:+ "' was deleted");;
  print "Next request will fetch updated property list".

(** ** The mutation events

    Django's contract for the two write operations of a model, as the spec's
    mutation event interface describes it: the row is written or removed, and
    after the write has succeeded the signal is sent, synchronously, to the
    receivers registered for the sender. properties/apps.py imports
    properties/signals.py, which registers one receiver per signal. A receiver
    that raises makes the write operation raise. *)

Definition has_row (p : Property) (rows : list Property) : bool :=
  existsb (fun r => id r =? id p) rows.

Definition upsert_row (p : Property) (rows : list Property) : list Property :=
  if has_row p rows
  then map (fun r => if id r =? id p then p else r) rows
  else rows ++ [p].

Definition remove_row (p : Property) (rows : list Property) : list Property :=
  List.filter (fun r => negb (id r =? id p)) rows.

Definition post_save_send (sender : model_class) (instance : Property)
    (created : bool) : M unit :=
  invalidate_property_cache_on_save sender instance created.

Definition post_delete_send (sender : model_class) (instance : Property) : M unit :=
  invalidate_property_cache_on_delete sender instance.

(** [instance.save()] *)
Definition Model_save (instance : Property) : M unit :=
  do_emit (DbWrite instance);;
  w ← (fun w => (Ok w, w));
  match db_fault w with
  | Some e => raise e
  | None =>
      let created := negb (has_row instance (table w)) in
      (fun w => (Ok tt, with_table (upsert_row instance (table w)) w));;
      post_save_send PropertyModel instance created
  end.

(** [with transaction.atomic(): body]: when the body raises, what it wrote to
    the table is rolled back; the trace keeps the operations that were
    attempted, and the cache, which is no part of the transaction, is left as
    the body left it. *)
Definition transaction_atomic {A} (body : M A) : M A := fun w =>
  match body w with
  | (Ok a, w') => (Ok a, w')
  | (Raise e, w') => (Raise e, with_table (table w) w')
  end.

(** [instance.delete()]: the removal and the sending of the signal are one
    transaction, so that a receiver that raises undoes the removal. (A save
    sends its signal once its write is done, outside of any transaction.) *)
Definition Model_delete (instance : Property) : M unit :=
  do_emit (DbRemove instance);;
  w ← (fun w => (Ok w, w));
  match db_fault w with
  | Some e => raise e
  | None =>
      transaction_atomic
        ((fun w => (Ok tt, with_table (remove_row instance (table w)) w));;
         post_delete_send PropertyModel instance)
  end.

Inductive mutation :=
  | Persist (instance : Property)
  | Remove (instance : Property).

Definition apply_mutation (mu : mutation) : M unit :=
  match mu with
  | Persist p => Model_save p
  | Remove p => Model_delete p
  end.

(** The backing store after a mutation. *)
Definition table_after (mu : mutation) (rows : list Property) : list Property :=
  match mu with
  | Persist p => upsert_row p rows
  | Remove p => remove_row p rows
  end.

(** ** properties/utils.py: the metrics reporter *)

Inductive redis_client := RedisClient (alias : string).

(** [get_redis_connection(alias)] *)
Definition get_redis_connection (alias : string) : M redis_client := fun w =>
  let w := emit (RedisConnect alias) w in
  match conn_fault w with
  | Some e => (Raise e, w)
  | None => (Ok (RedisClient alias), w)
  end.

(** [client.info()] *)
Definition redis_info (client : redis_client) : M (gmap string Z) := fun w =>
  let w := emit RedisInfo w in
  match info_fault w with
  | Some e => (Raise e, w)
  | None => (Ok (redis_stats w), w)
  end.

(** [info.get(key, dflt)] *)
Definition dict_get (info : gmap string Z) (key : string) (dflt : Z) : Z :=
  default dflt (info !! key).

(** [logging.getLogger('cache_metrics')] *)
Definition logger : string := "cache_metrics".

Definition logger_info (line : string) : M unit := do_emit (LogInfo logger line).
Definition logger_error (line : string) : M unit := do_emit (LogError logger line).

(** The metrics dictionary, with its five fixed keys. *)
Record metrics := {
  hits : Z;
  misses : Z;
  total_requests : Z;
  hit_ratio : PyFloat.float;
  hit_ratio_percent : PyFloat.float
}.

Definition get_redis_cache_metrics : M (option metrics) :=
  try_except
    (redis_client ← get_redis_connection "default";
     info ← redis_info redis_client;
     let hits := dict_get info "keyspace_hits" 0 in
     let misses := dict_get info "keyspace_misses" 0 in
     let total_requests := hits + misses in
     hit_ratio ← (if 0 <? total_requests
                  then lift (PyFloat.truediv hits total_requests)
                  else mret PyFloat.zero);
     let metrics :=
       {| hits := hits;
          misses := misses;
          total_requests := total_requests;
          hit_ratio := hit_ratio;
          hit_ratio_percent := PyFloat.mul hit_ratio PyFloat.lit_100 |} in
     logger_info "Redis Cache Metrics:";;
     logger_info ("  Cache Hits: " +:+ pretty hits);;
     logger_info ("  Cache Misses: " +:+ pretty misses);;
     logger_info ("  Total Requests: " +:+ pretty total_requests);;
     logger_info ("  Hit Ratio: " +:+ PyFloat.format_pct 2 hit_ratio);;
     print ("Cache Performance: " +:+ PyFloat.format_pct 2 hit_ratio
            +:+ " hit ratio (" +:+ pretty hits +:+ " hits, "
            +:+ pretty misses +:+ " misses)");;
     mret (Some metrics))
    (fun e =>
       let error_msg := "Error getting cache metrics: " +:+ str_exn e in
       logger_error error_msg;;
       print error_msg;;
       mret None).

(** ** properties/views.py: the metrics endpoint *)

#[warnings="-register-all"] Inductive json :=
  | JInt (n : Z)
  | JStr (s : string)
  | JObj (fields : list (string * json)).

Record HttpRequest := { GET : gmap string string }.

Record HttpResponse := { status_code : Z; content : json }.

(** [JsonResponse(data, status=...)], the status being 200 when left out. *)
Definition JsonResponse (data : json) (status : option Z) : HttpResponse :=
  {| status_code := default 200 status; content := data |}.

(** The two conditional expressions of the [interpretation] entry. *)
Definition performance (hit_ratio : PyFloat.float) : string :=
  if PyFloat.geb hit_ratio PyFloat.lit_0_9 then "excellent"
  else if PyFloat.geb hit_ratio PyFloat.lit_0_7 then "good"
  else if PyFloat.geb hit_ratio PyFloat.lit_0_5 then "average"
  else "poor".

Definition recommendation (hit_ratio : PyFloat.float) : string :=
  if PyFloat.geb hit_ratio PyFloat.lit_0_7 then "Cache is working well!"
  else "Consider optimizing cache strategy".

Definition cache_metrics (request : HttpRequest) : M HttpResponse :=
  metrics ← get_redis_cache_metrics;
  match metrics with
  | None =>
      mret (JsonResponse
              (JObj [("error", JStr "Could not retrieve cache metrics");
                     ("status", JStr "error")])
              (Some 500))
  | Some metrics =>
      mret (JsonResponse
              (JObj
                 [("cache_metrics",
                   JObj [("hits", JInt (hits metrics));
                         ("misses", JInt (misses metrics));
                         ("total_requests", JInt (total_requests metrics));
                         ("hit_ratio", JStr (PyFloat.format_f 4 (hit_ratio metrics)));
                         ("hit_ratio_percent",
                          JStr (PyFloat.format_f 2 (hit_ratio_percent metrics) +:+ "%"))]);
                  ("interpretation",
                   JObj [("performance", JStr (performance (hit_ratio metrics)));
                         ("recommendation", JStr (recommendation (hit_ratio metrics)))]);
                  ("status", JStr "success")])
              None)
  end.

(** Reading an entry of a JSON object by a path of keys. *)
Fixpoint assoc_get (key : string) (fields : list (string * json)) : option json :=
  match fields with
  | [] => None
  | (k, v) :: rest => if String.eqb k key then Some v else assoc_get key rest
  end.

Fixpoint json_path (path : list string) (j : json) : option json :=
  match path with
  | [] => Some j
  | key :: rest =>
      match j with
      | JObj fields =>
          match assoc_get key fields with
          | Some v => json_path rest v
          | None => None
          end
      | _ => None
      end
  end.

(** ** Reading traces *)

(** The operations performed between two worlds of one run. *)
Definition since (w w' : world) : list event :=
  drop (length (trace w)) (trace w').

Definition is_db_read (ev : event) : bool :=
  match ev with DbSelectAll => true | _ => false end.

Definition is_cache_write (ev : event) : bool :=
  match ev with CacheSet _ _ _ | CacheDelete _ => true | _ => false end.

(** Number of queries sent to the backing store. *)
Definition db_queries (t : list event) : nat := length (List.filter is_db_read t).

(** Number of writes and deletes sent to the cache. *)
Definition cache_writes (t : list event) : nat :=
  length (List.filter is_cache_write t).

(** The keys named by the cache operations of a trace. *)
Definition cache_keys (t : list event) : list string :=
  flat_map (fun ev =>
    match ev with
    | CacheGet k | CacheSet k _ _ | CacheDelete k => [k]
    | _ => []
    end) t.

(** ** Reading the metrics *)

(** The ratio as the reporter computes it from the two counters. *)
Definition ratio_of (hits misses : Z) : result PyFloat.float :=
  if 0 <? hits + misses then PyFloat.truediv hits (hits + misses)
  else Ok PyFloat.zero.

Definition stat (w : world) (key : string) : Z := dict_get (redis_stats w) key 0.

(** The two entries of the report's interpretation. *)
Definition report_tier (response : HttpResponse) : option json :=
  json_path ["interpretation"; "performance"] (content response).

Definition report_recommendation (response : HttpResponse) : option json :=
  json_path ["interpretation"; "recommendation"] (content response).

(** ** Sample worlds *)

Definition villa : Property :=
  {| id := 1; title := "Villa"; description := "Sea view"; price := 25000000;
     location := "Mombasa"; created_at := 1700000000 |}.

Definition studio : Property :=
  {| id := 2; title := "Studio"; description := "City centre"; price := 4500000;
     location := "Nairobi"; created_at := 1700000500 |}.

Definition refused : exn := Exn ConnectionError "Error 111 connecting to redis:6379".

Definition db_down : exn := Exn DatabaseError "connection to server failed".

(** Nothing cached, two rows in the table, ten lookups counted by Redis. *)
Definition cold_world : world :=
  {| now := 1000; cache_store := ∅; cache_fault := None;
     table := [villa; studio]; db_fault := None;
     conn_fault := None; info_fault := None;
     redis_stats := <["keyspace_hits" := 9]> (<["keyspace_misses" := 1]> ∅);
     trace := [] |}.

(** The collection cached a while ago, holding the villa only. *)
Definition warm_world : world :=
  {| now := 1000;
     cache_store :=
       <["all_properties" := {| ce_value := PyList [villa]; ce_expires := 4000 |}]> ∅;
     cache_fault := None;
     table := [villa]; db_fault := None;
     conn_fault := None; info_fault := None;
     redis_stats := ∅;
     trace := [] |}.

(** No rows at all. *)
Definition empty_world : world :=
  {| now := 1000; cache_store := ∅; cache_fault := None;
     table := []; db_fault := None;
     conn_fault := None; info_fault := None;
     redis_stats := ∅;
     trace := [] |}.

(** Nothing cached and the database down. *)
Definition broken_db_world : world :=
  {| now := 1000; cache_store := ∅; cache_fault := None;
     table := [villa]; db_fault := Some db_down;
     conn_fault := None; info_fault := None;
     redis_stats := ∅;
     trace := [] |}.

(** The Redis server refusing the INFO command. *)
Definition broken_redis_world : world :=
  {| now := 1000; cache_store := ∅; cache_fault := None;
     table := [villa]; db_fault := None;
     conn_fault := None; info_fault := Some refused;
     redis_stats := ∅;
     trace := [] |}.

(** The snapshot that the reporter computes in [cold_world]. *)
Definition cold_snapshot : metrics :=
  {| hits := 9; misses := 1; total_requests := 10;
     hit_ratio := PyFloat.lit_0_9;
     hit_ratio_percent := PyFloat.mul PyFloat.lit_0_9 PyFloat.lit_100 |}.

(** Seven lookups out of a hundred answered by the cache, and the snapshot
    that the reporter computes from them: 7 / 100 is
    0.070000000000000006661338147750939242541790008544921875, and its product
    by 100.0 is 7.00000000000000088817841970012523233890533447265625. *)
Definition seven_percent_world : world :=
  {| now := 1000; cache_store := ∅; cache_fault := None;
     table := [villa; studio]; db_fault := None;
     conn_fault := None; info_fault := None;
     redis_stats := <["keyspace_hits" := 7]> (<["keyspace_misses" := 93]> ∅);
     trace := [] |}.

Definition seven_percent_snapshot : metrics :=
  {| hits := 7; misses := 93; total_requests := 100;
     hit_ratio := S754_finite false 5044031582654956 (-56);
     hit_ratio_percent := S754_finite false 7881299347898369 (-50) |}.

(** The tier that the report shows for two counters. *)
Definition tier_of_counters (hits misses : Z) : option string :=
  match ratio_of hits misses with
  | Ok r => Some (performance r)
  | Raise _ => None
  end.

(** ** properties/utils.py: resetting the statistics *)

Definition with_redis_stats (stats : gmap string Z) (w : world) : world :=
  {| now := now w; cache_store := cache_store w; cache_fault := cache_fault w;
     table := table w; db_fault := db_fault w; conn_fault := conn_fault w;
     info_fault := info_fault w; redis_stats := stats;
     trace := trace w |}.

Section ResetStats.

(** What the server does with the two commands is a parameter: whether each
    fails, and which integer fields of the INFO reply CONFIG RESETSTAT sets
    back to zero. The connection is the one of the cache alias "default", so
    that FLUSHDB empties the database in which the Django cache keeps its
    entries. The trace has no event for the two commands. *)
Variable flush_fault : option exn.
Variable resetstat_fault : option exn.
Variable resettable : string -> bool.

(** [client.flushdb()] *)
Definition redis_flushdb (client : redis_client) : M unit := fun w =>
  match flush_fault with
  | Some e => (Raise e, w)
  | None => (Ok tt, with_cache_store ∅ w)
  end.

(** [client.config_resetstat()] *)
Definition redis_config_resetstat (client : redis_client) : M unit := fun w =>
  match resetstat_fault with
  | Some e => (Raise e, w)
  | None =>
      (Ok tt,
       with_redis_stats
         (map_imap (fun key n => Some (if resettable key then 0 else n))
            (redis_stats w)) w)
  end.

Definition reset_redis_cache_stats : M bool :=
  try_except
    (redis_client ← get_redis_connection "default";
     redis_flushdb redis_client;;
     redis_config_resetstat redis_client;;
     print "Cache cleared and statistics reset";;
     mret true)
    (fun e =>
       print ("Error resetting cache stats: " +:+ str_exn e);;
       mret false).

End ResetStats.

(** ** properties/views.py: the listing view

    The function under the [cache_page] decorator. The decorator's cache of
    whole responses is Django's and is not part of this model: what follows is
    what runs when that outer cache does not answer. *)

(** The dictionary built for one property in the JSON answer. *)
Record property_dict := {
  pd_id : Z;
  pd_title : string;
  pd_description : string;
  pd_price : PyFloat.float;
  pd_location : string;
  pd_created_at : string
}.

(** What the view hands over: the data given to [JsonResponse], or the
    template and the context given to [render]. *)
Inductive listing_response :=
  | JsonListing (properties : list property_dict) (count : nat)
  | HtmlListing (template : string) (properties : pyobj) (total_count : nat).

(** How the view can fail: with an exception of a collaborator, or with one
    that Python raises on a cached value that is not a list of properties. *)
Inductive view_error :=
  | Collaborator (e : exn)
  | TypeError (msg : string)
  | AttributeError (msg : string).

Inductive view_result :=
  | Responded (response : listing_response)
  | Failed (err : view_error).

Section ListingView.

(** The two conversions of the fields whose Python types come from the model
    class: [float(prop.price)] and [prop.created_at.isoformat()]. *)
Variable float_of_decimal : Z -> PyFloat.float.
Variable isoformat : Z -> string.

Definition property_to_dict (prop : Property) : property_dict :=
  {| pd_id := id prop;
     pd_title := title prop;
     pd_description := description prop;
     pd_price := float_of_decimal (price prop);
     pd_location := location prop;
     pd_created_at := isoformat (created_at prop) |}.

(** The loop [for prop in properties: properties_data.append({...})] over a
    list. *)
Definition collect_properties (properties : list Property) : list property_dict :=
  fold_left (fun properties_data prop => properties_data ++ [property_to_dict prop])
            properties [].

Definition property_list (request : HttpRequest) : world -> view_result * world :=
  fun w =>
  match get_all_properties w with
  | (Raise e, w') => (Failed (Collaborator e), w')
  | (Ok properties, w') =>
      if bool_decide (GET request !! "format" = Some "json") then
        match properties with
        | PyList rows =>
            let properties_data := collect_properties rows in
            (Responded (JsonListing properties_data (length properties_data)), w')
        | PyStr "" => (Responded (JsonListing [] 0), w')
        | PyStr _ => (Failed (AttributeError "'str' object has no attribute 'id'"), w')
        | PyInt _ => (Failed (TypeError "'int' object is not iterable"), w')
        | PyNone => (Failed (TypeError "'NoneType' object is not iterable"), w')
        end
      else
        match properties with
        | PyList rows =>
            (Responded (HtmlListing "properties/property_list.html" properties
                                    (length rows)), w')
        | PyStr s =>
            (Responded (HtmlListing "properties/property_list.html" properties
                                    (String.length s)), w')
        | PyInt _ => (Failed (TypeError "object of type 'int' has no len()"), w')
        | PyNone => (Failed (TypeError "object of type 'NoneType' has no len()"), w')
        end
  end.

End ListingView.

(** ** Runs of several requests *)

(** Reads of the collection, each after a wait. *)
Fixpoint read_each (waits : list Z) : M (list pyobj) :=
  match waits with
  | [] => mret []
  | dt :: rest =>
      (fun w => (Ok tt, tick dt w));;
      v ← get_all_properties;
      vs ← read_each rest;
      mret (v :: vs)
  end.

Inductive step :=
  | Read
  | Mutate (mu : mutation)
  | Wait (dt : Z).

(** A run of reads, mutations and waits: the answer of each read, with the
    table as it was when the read was made. *)
Fixpoint run_steps (steps : list step) (w : world)
    : list (result pyobj * list Property) * world :=
  match steps with
  | [] => ([], w)
  | Read :: rest =>
      let '(r, w1) := get_all_properties w in
      let '(answers, w2) := run_steps rest w1 in
      ((r, table w) :: answers, w2)
  | Mutate mu :: rest => run_steps rest (snd (apply_mutation mu w))
  | Wait dt :: rest => run_steps rest (tick dt w)
  end.

Definition total_wait (waits : list Z) : Z := fold_right Z.add 0 waits.

(** The operations of the read path: reads and writes of the cache, the query
    and the prints. *)
Definition read_path_event (ev : event) : bool :=
  match ev with
  | CacheGet _ | CacheSet _ _ _ | DbSelectAll | Stdout _ => true
  | _ => false
  end.

(** The cached collection, when there is one, is the table. *)
Definition coherent (w : world) : Prop :=
  forall ce, cache_store w !! "all_properties" = Some ce ->
             ce_value ce = PyList (table w).

(** ** The tiers read on the exact ratio *)

(** The tier and the recommendation of the ratio [hits / total] compared as a
    fraction with 9/10, 7/10 and 5/10. *)
Definition exact_tier (hits total : Z) : string :=
  if 9 * total <=? 10 * hits then "excellent"
  else if 7 * total <=? 10 * hits then "good"
  else if 5 * total <=? 10 * hits then "average"
  else "poor".

Definition exact_recommendation (hits total : Z) : string :=
  if 7 * total <=? 10 * hits then "Cache is working well!"
  else "Consider optimizing cache strategy".

(** The recommendation that the report shows for two counters. *)
Definition recommendation_of_counters (hits misses : Z) : option string :=
  match ratio_of hits misses with
  | Ok r => Some (recommendation r)
  | Raise _ => None
  end.

(** ** More sample worlds *)

(** The cache backend unreachable, the collection cached before. *)
Definition cache_down_world : world :=
  {| now := 1000;
     cache_store :=
       <["all_properties" := {| ce_value := PyList [villa]; ce_expires := 4000 |}]> ∅;
     cache_fault := Some refused;
     table := [villa]; db_fault := None;
     conn_fault := None; info_fault := None;
     redis_stats := ∅;
     trace := [] |}.

(** A page of some view cached beside the collection. *)
Definition shared_cache_world : world :=
  {| now := 1000;
     cache_store :=
       <["views.decorators.cache.cache_page" := {| ce_value := PyStr "<html>"; ce_expires := 1900 |}]>
         (<["all_properties" := {| ce_value := PyList [villa]; ce_expires := 4000 |}]> ∅);
     cache_fault := None;
     table := [villa]; db_fault := None;
     conn_fault := None; info_fault := None;
     redis_stats := <["keyspace_hits" := 40]> (<["uptime_in_seconds" := 86400]> ∅);
     trace := [] |}.

(** The fields that CONFIG RESETSTAT sets to zero, among those used here. *)
Definition counters_only (key : string) : bool :=
  bool_decide (key = "keyspace_hits" \/ key = "keyspace_misses").

Definition json_request : HttpRequest := {| GET := <["format" := "json"]> ∅ |}.

Definition plain_request : HttpRequest := {| GET := ∅ |}.

(** * Properties *)

(** ** Basic facts about the world and the trace *)

Lemma since_app (w w' : world) (d : list event) :
  trace w' = trace w ++ d -> since w w' = d.
Proof.
  intros H. unfold since. rewrite H. apply drop_app_length.
Qed.

Lemma cache_lookup_emit (key : string) (ev : event) (w : world) :
  cache_lookup key (emit ev w) = cache_lookup key w.
Proof. reflexivity. Qed.

(** A cache read answers exactly when the backend is reachable, and then with
    what the store holds. *)
Lemma cache_get_Ok (key : string) (w : world) (v : pyobj) :
  fst (cache_get key w) = Ok v <->
  cache_fault w = None /\ cache_lookup key w = v.
Proof.
  unfold cache_get. simpl. destruct (cache_fault w) as [e|]; simpl.
  - split; [discriminate | intros [H _]; discriminate].
  - rewrite cache_lookup_emit. split.
    + intros H. injection H as H. auto.
    + intros [_ H]. now rewrite H.
Qed.

Ltac run_M :=
  cbv [mbind M_bind mret M_ret print do_emit raise lift try_except
       cache_get cache_set cache_delete list_queryset Property_objects_all
       get_redis_connection redis_info logger_info logger_error];
  simpl.

Ltac trace_eq := simpl; rewrite <- ?app_assoc; reflexivity.

(** ** The cache-aside accessor *)

(** The run of [get_all_properties] on a miss with a working backing store. *)
Lemma get_all_properties_miss (w : world) :
  cache_fault w = None ->
  cache_lookup "all_properties" w = PyNone ->
  db_fault w = None ->
  get_all_properties w =
    (Ok (PyList (table w)),
     emit (Stdout ("Cached " +:+ pretty (length (table w)) +:+ " properties for 1 hour"))
       (with_cache_store
          (<["all_properties" :=
               {| ce_value := PyList (table w); ce_expires := now w + 3600 |}]>
             (cache_store w))
          (emit (CacheSet "all_properties" (PyList (table w)) 3600)
             (emit DbSelectAll
                (emit (Stdout "Cache MISS: Fetching properties from database...")
                   (emit (CacheGet "all_properties") w)))))).
Proof.
  intros Hc Hmiss Hdb. unfold get_all_properties. run_M.
  rewrite Hc. rewrite cache_lookup_emit, Hmiss. simpl.
  rewrite Hdb. simpl. rewrite Hc. reflexivity.
Qed.

(** The run of [get_all_properties] on a hit. *)
Lemma get_all_properties_hit (w : world) (v : pyobj) :
  cache_fault w = None ->
  cache_lookup "all_properties" w = v ->
  v <> PyNone ->
  get_all_properties w =
    (Ok v,
     emit (Stdout "Cache HIT: Using cached properties (fast!)")
       (emit (CacheGet "all_properties") w)).
Proof.
  intros Hc Hv Hne. unfold get_all_properties. run_M.
  rewrite Hc. rewrite cache_lookup_emit, Hv.
  destruct v; [congruence | reflexivity ..].
Qed.

(** C1: on a cache miss, [get_all_properties] reads the whole backing store,
    stores the list it read under the key 'all_properties' with a timeout of
    3600 seconds, and returns that same list. *)
Theorem get_all_properties_miss_populates (w : world) :
  fst (cache_get "all_properties" w) = Ok PyNone ->
  db_fault w = None ->
  exists w',
    get_all_properties w = (Ok (PyList (table w)), w') /\
    since w w' =
      [CacheGet "all_properties";
       Stdout "Cache MISS: Fetching properties from database...";
       DbSelectAll;
       CacheSet "all_properties" (PyList (table w)) 3600;
       Stdout ("Cached " +:+ pretty (length (table w)) +:+ " properties for 1 hour")] /\
    cache_store w' =
      <["all_properties" :=
          {| ce_value := PyList (table w); ce_expires := now w + 3600 |}]>
        (cache_store w) /\
    (forall dt, 0 <= dt < 3600 ->
       cache_lookup "all_properties" (tick dt w') = PyList (table w)) /\
    cache_lookup "all_properties" (tick 3600 w') = PyNone /\
    table w' = table w.
Proof.
  intros Hget Hdb. apply cache_get_Ok in Hget as [Hc Hmiss].
  eexists. split; [apply get_all_properties_miss; assumption |].
  split; [apply since_app; trace_eq |].
  split; [reflexivity |].
  split; [| split; [| reflexivity]].
  - intros dt Hdt. unfold cache_lookup. simpl.
    rewrite lookup_insert_eq. simpl.
    destruct (Z.ltb_spec (now w + dt) (now w + 3600)); [reflexivity | lia].
  - unfold cache_lookup. simpl. rewrite lookup_insert_eq. simpl.
    now rewrite Z.ltb_irrefl.
Qed.

Lemma get_all_properties_miss_populates_witness :
  fst (cache_get "all_properties" cold_world) = Ok PyNone /\
  db_fault cold_world = None /\
  exists w', get_all_properties cold_world = (Ok (PyList [villa; studio]), w').
Proof.
  split; [reflexivity |]. split; [reflexivity |].
  destruct (get_all_properties_miss_populates cold_world eq_refl eq_refl)
    as [w' [H _]].
  exists w'. exact H.
Defined.

(** C2: on a cache hit, [get_all_properties] returns the cached value as it
    is, sends no query to the backing store, and neither writes to nor deletes
    from the cache; the world is the one before the call, the trace apart. *)
Theorem get_all_properties_hit_unchanged (w : world) (v : pyobj) :
  fst (cache_get "all_properties" w) = Ok v ->
  v <> PyNone ->
  exists w',
    get_all_properties w = (Ok v, w') /\
    since w w' =
      [CacheGet "all_properties";
       Stdout "Cache HIT: Using cached properties (fast!)"] /\
    db_queries (since w w') = 0%nat /\
    cache_writes (since w w') = 0%nat /\
    cache_store w' = cache_store w /\
    table w' = table w /\
    now w' = now w.
Proof.
  intros Hget Hne. apply cache_get_Ok in Hget as [Hc Hv].
  eexists. split; [apply get_all_properties_hit; eassumption |].
  assert (Hs : since w (emit (Stdout "Cache HIT: Using cached properties (fast!)")
                          (emit (CacheGet "all_properties") w)) =
               [CacheGet "all_properties";
                Stdout "Cache HIT: Using cached properties (fast!)"])
    by (apply since_app; trace_eq).
  rewrite Hs. repeat split; reflexivity.
Qed.

Lemma get_all_properties_hit_unchanged_witness :
  fst (cache_get "all_properties" warm_world) = Ok (PyList [villa]) /\
  PyList [villa] <> PyNone /\
  exists w', get_all_properties warm_world = (Ok (PyList [villa]), w') /\
             cache_store w' = cache_store warm_world.
Proof.
  assert (Hne : PyList [villa] <> PyNone) by discriminate.
  split; [reflexivity |]. split; [exact Hne |].
  destruct (get_all_properties_hit_unchanged warm_world (PyList [villa]) eq_refl Hne)
    as [w' [H [_ [_ [_ [Hs _]]]]]].
  exists w'. split; [exact H | exact Hs].
Defined.

(** C5: on a cache miss with a failing backing-store read, the failure
    reaches the caller and nothing is written to the cache. *)
Theorem get_all_properties_db_failure (w : world) (e : exn) :
  fst (cache_get "all_properties" w) = Ok PyNone ->
  db_fault w = Some e ->
  exists w',
    get_all_properties w = (Raise e, w') /\
    since w w' =
      [CacheGet "all_properties";
       Stdout "Cache MISS: Fetching properties from database...";
       DbSelectAll] /\
    cache_writes (since w w') = 0%nat /\
    cache_store w' = cache_store w.
Proof.
  intros Hget Hdb. apply cache_get_Ok in Hget as [Hc Hmiss].
  unfold get_all_properties. run_M.
  rewrite Hc. rewrite cache_lookup_emit, Hmiss. simpl. rewrite Hdb.
  eexists. split; [reflexivity |].
  match goal with |- since ?a ?b = ?d /\ _ =>
    assert (Hs : since a b = d) by (apply since_app; trace_eq) end.
  rewrite Hs. repeat split; reflexivity.
Qed.

Lemma get_all_properties_db_failure_witness :
  fst (cache_get "all_properties" broken_db_world) = Ok PyNone /\
  db_fault broken_db_world = Some db_down /\
  exists w', get_all_properties broken_db_world = (Raise db_down, w') /\
             cache_store w' = cache_store broken_db_world.
Proof.
  split; [reflexivity |]. split; [reflexivity |].
  destruct (get_all_properties_db_failure broken_db_world db_down eq_refl eq_refl)
    as [w' [H [_ [_ Hs]]]].
  exists w'. split; [exact H | exact Hs].
Defined.

(** C9: with no rows in the backing store, a cache miss stores the empty list
    under 'all_properties' and returns it, and the next call, while the entry
    lives, is a hit on that empty list: no query is sent. *)
Theorem get_all_properties_empty_store (w : world) (dt : Z) :
  fst (cache_get "all_properties" w) = Ok PyNone ->
  db_fault w = None ->
  table w = [] ->
  0 <= dt < 3600 ->
  exists w1 w2,
    get_all_properties w = (Ok (PyList []), w1) /\
    cache_store w1 !! "all_properties" =
      Some {| ce_value := PyList []; ce_expires := now w + 3600 |} /\
    In (CacheSet "all_properties" (PyList []) 3600) (since w w1) /\
    get_all_properties (tick dt w1) = (Ok (PyList []), w2) /\
    since (tick dt w1) w2 =
      [CacheGet "all_properties";
       Stdout "Cache HIT: Using cached properties (fast!)"] /\
    db_queries (since (tick dt w1) w2) = 0%nat.
Proof.
  intros Hget Hdb Hrows Hdt. apply cache_get_Ok in Hget as [Hc Hmiss].
  pose proof (get_all_properties_miss w Hc Hmiss Hdb) as Hrun.
  rewrite Hrows in Hrun. simpl in Hrun.
  match type of Hrun with _ = (_, ?x) => set (w1 := x) in * end.
  assert (Hlive : cache_lookup "all_properties" (tick dt w1) = PyList []).
  { unfold cache_lookup. simpl. rewrite lookup_insert_eq. simpl.
    destruct (Z.ltb_spec (now w + dt) (now w + 3600)); [reflexivity | lia]. }
  assert (Hne : PyList [] <> PyNone) by discriminate.
  pose proof (get_all_properties_hit (tick dt w1) (PyList []) Hc Hlive Hne) as Hrun2.
  match type of Hrun2 with _ = (_, ?x) => set (w2 := x) in * end.
  assert (Hs2 : since (tick dt w1) w2 =
                [CacheGet "all_properties";
                 Stdout "Cache HIT: Using cached properties (fast!)"])
    by (apply since_app; trace_eq).
  exists w1, w2. split; [exact Hrun |].
  split; [apply lookup_insert_eq |].
  split.
  { assert (Hs1 : since w w1 =
        [CacheGet "all_properties";
         Stdout "Cache MISS: Fetching properties from database...";
         DbSelectAll;
         CacheSet "all_properties" (PyList []) 3600;
         Stdout "Cached 0 properties for 1 hour"])
      by (apply since_app; trace_eq).
    rewrite Hs1. simpl. tauto. }
  split; [exact Hrun2 |]. rewrite Hs2. split; reflexivity.
Qed.

Lemma get_all_properties_empty_store_witness :
  fst (cache_get "all_properties" empty_world) = Ok PyNone /\
  db_fault empty_world = None /\
  table empty_world = [] /\
  0 <= 1800 < 3600 /\
  exists w1 w2,
    get_all_properties empty_world = (Ok (PyList []), w1) /\
    get_all_properties (tick 1800 w1) = (Ok (PyList []), w2).
Proof.
  assert (Hdt : 0 <= 1800 < 3600) by lia.
  split; [reflexivity |]. split; [reflexivity |]. split; [reflexivity |].
  split; [exact Hdt |].
  destruct (get_all_properties_empty_store empty_world 1800 eq_refl eq_refl eq_refl Hdt)
    as [w1 [w2 [H1 [_ [_ [H2 _]]]]]].
  exists w1, w2. split; [exact H1 | exact H2].
Defined.

(** ** The invalidation handlers *)

Lemma invalidate_on_save_run (w : world) (instance : Property) (created : bool) :
  cache_fault w = None ->
  invalidate_property_cache_on_save PropertyModel instance created w =
    (Ok tt,
     emit (Stdout "Next request will fetch fresh data from database")
       (emit (Stdout ("Cache invalidated: Property '" +:+ title instance +:+ "' was "
                     +:+ (if created then "created" else "updated")))
          (with_cache_store (delete "all_properties" (cache_store w))
             (emit (CacheDelete "all_properties") w)))).
Proof.
  intros Hc. unfold invalidate_property_cache_on_save. run_M.
  rewrite Hc. reflexivity.
Qed.

Lemma invalidate_on_delete_run (w : world) (instance : Property) :
  cache_fault w = None ->
  invalidate_property_cache_on_delete PropertyModel instance w =
    (Ok tt,
     emit (Stdout "Next request will fetch updated property list")
       (emit (Stdout ("Cache invalidated: Property '" +:+ title instance
                     +:+ "' was deleted"))
          (with_cache_store (delete "all_properties" (cache_store w))
             (emit (CacheDelete "all_properties") w)))).
Proof.
  intros Hc. unfold invalidate_property_cache_on_delete. run_M.
  rewrite Hc. reflexivity.
Qed.

(** With the cache unreachable the handlers do not complete: the failure of the
    delete is raised to the sender of the signal. *)
Lemma invalidate_on_save_fault (w : world) (instance : Property) (created : bool)
    (e : exn) :
  cache_fault w = Some e ->
  fst (invalidate_property_cache_on_save PropertyModel instance created w) = Raise e.
Proof.
  intros Hc. unfold invalidate_property_cache_on_save. run_M.
  rewrite Hc. reflexivity.
Qed.

Lemma invalidate_on_delete_fault (w : world) (instance : Property) (e : exn) :
  cache_fault w = Some e ->
  fst (invalidate_property_cache_on_delete PropertyModel instance w) = Raise e.
Proof.
  intros Hc. unfold invalidate_property_cache_on_delete. run_M.
  rewrite Hc. reflexivity.
Qed.

Lemma cache_lookup_deleted (key : string) (w : world) :
  cache_store w !! key = None -> cache_lookup key w = PyNone.
Proof. intros H. unfold cache_lookup. now rewrite H. Qed.




(** ** Coherence after a mutation *)

Lemma apply_mutation_run (mu : mutation) (w : world) :
  cache_fault w = None ->
  db_fault w = None ->
  exists w1,
    apply_mutation mu w = (Ok tt, w1) /\
    table w1 = table_after mu (table w) /\
    cache_store w1 = delete "all_properties" (cache_store w) /\
    cache_fault w1 = None /\
    db_fault w1 = None.
Proof.
  intros Hc Hdb. destruct mu as [p | p]; simpl.
  - unfold Model_save, post_save_send, invalidate_property_cache_on_save. run_M.
    rewrite Hdb. simpl. rewrite Hc.
    eexists. split; [reflexivity |]. repeat split; assumption.
  - unfold Model_delete, transaction_atomic, post_delete_send,
      invalidate_property_cache_on_delete.
    run_M. rewrite Hdb. simpl. rewrite Hc.
    eexists. split; [reflexivity |]. repeat split; assumption.
Qed.

(** C4: with the collection cached, after a mutation (a save or a delete,
    whose handler has run) the next call of [get_all_properties] sends exactly
    one query to the backing store, returns the rows as they are after the
    mutation, and caches them again. *)
Theorem read_after_mutation_is_fresh (w : world) (mu : mutation) (v : pyobj) :
  fst (cache_get "all_properties" w) = Ok v ->
  v <> PyNone ->
  db_fault w = None ->
  exists w1 w2,
    apply_mutation mu w = (Ok tt, w1) /\
    table w1 = table_after mu (table w) /\
    get_all_properties w1 = (Ok (PyList (table w1)), w2) /\
    db_queries (since w1 w2) = 1%nat /\
    cache_store w2 !! "all_properties" =
      Some {| ce_value := PyList (table w1); ce_expires := now w1 + 3600 |}.
Proof.
  intros Hget Hne Hdb. apply cache_get_Ok in Hget as [Hc Hv].
  destruct (apply_mutation_run mu w Hc Hdb) as [w1 [Hmu [Ht [Hst [Hc1 Hdb1]]]]].
  assert (Hmiss : cache_lookup "all_properties" w1 = PyNone).
  { apply cache_lookup_deleted. rewrite Hst. apply lookup_delete_eq. }
  pose proof (get_all_properties_miss w1 Hc1 Hmiss Hdb1) as Hrun.
  match type of Hrun with _ = (_, ?x) => set (w2 := x) in * end.
  assert (Hs : since w1 w2 =
    [CacheGet "all_properties";
     Stdout "Cache MISS: Fetching properties from database...";
     DbSelectAll;
     CacheSet "all_properties" (PyList (table w1)) 3600;
     Stdout ("Cached " +:+ pretty (length (table w1)) +:+ " properties for 1 hour")])
    by (apply since_app; trace_eq).
  exists w1, w2. rewrite Hs.
  split; [exact Hmu |]. split; [exact Ht |]. split; [exact Hrun |].
  split; [reflexivity |]. apply lookup_insert_eq.
Qed.

Lemma read_after_mutation_is_fresh_witness :
  fst (cache_get "all_properties" warm_world) = Ok (PyList [villa]) /\
  PyList [villa] <> PyNone /\
  db_fault warm_world = None /\
  exists w1 w2,
    apply_mutation (Persist studio) warm_world = (Ok tt, w1) /\
    get_all_properties w1 = (Ok (PyList [villa; studio]), w2).
Proof.
  assert (Hne : PyList [villa] <> PyNone) by discriminate.
  split; [reflexivity |]. split; [exact Hne |]. split; [reflexivity |].
  destruct (read_after_mutation_is_fresh warm_world (Persist studio)
              (PyList [villa]) eq_refl Hne eq_refl)
    as [w1 [w2 [H1 [Ht [H2 _]]]]].
  exists w1, w2. split; [exact H1 |].
  rewrite Ht in H2. exact H2.
Defined.

(** ** Binary64 arithmetic *)

Module PyFloatFacts.
Import PyFloat.

(** The number of binary digits brackets a positive number between two
    powers of two. *)
Lemma digits2_pos_bounds (p : positive) :
  2 ^ (Z.pos (digits2_pos p) - 1) <= Z.pos p < 2 ^ Z.pos (digits2_pos p).
Proof.
  induction p as [p IH | p IH |]; simpl digits2_pos.
  - rewrite Pos2Z.inj_succ.
    replace (Z.succ (Z.pos (digits2_pos p)) - 1)
      with (Z.succ (Z.pos (digits2_pos p) - 1)) by lia.
    rewrite !Z.pow_succ_r by lia. lia.
  - rewrite Pos2Z.inj_succ.
    replace (Z.succ (Z.pos (digits2_pos p)) - 1)
      with (Z.succ (Z.pos (digits2_pos p) - 1)) by lia.
    rewrite !Z.pow_succ_r by lia. lia.
  - simpl. lia.
Qed.

Lemma Zdigits2_nonneg (m : Z) : 0 <= Zdigits2 m.
Proof. destruct m; simpl; lia. Qed.

Lemma Zdigits2_upper (m k : Z) : 0 <= m -> 0 <= k -> m < 2 ^ k -> Zdigits2 m <= k.
Proof.
  intros Hm Hk Hlt. destruct m as [| p | p]; simpl; [lia | | lia].
  destruct (digits2_pos_bounds p) as [Hlo _].
  destruct (Z.le_gt_cases (Z.pos (digits2_pos p)) k) as [|Hgt]; [assumption |].
  assert (2 ^ k <= 2 ^ (Z.pos (digits2_pos p) - 1))
    by (apply Z.pow_le_mono_r; lia).
  lia.
Qed.

Lemma Zdigits2_lt_pow (m : Z) : 0 <= m -> m < 2 ^ Zdigits2 m.
Proof.
  intros Hm. destruct m as [| p | p]; simpl; [lia | | lia].
  apply digits2_pos_bounds.
Qed.

(** Shifting right by one halves the mantissa, and by [n] divides it by
    [2^n]. *)
Lemma shr_1_m (mrs : shr_record) :
  0 <= shr_m mrs -> shr_m (shr_1 mrs) = shr_m mrs / 2.
Proof.
  destruct mrs as [m r s]. simpl. intros Hm.
  destruct m as [| [p | p |] | p]; simpl shr_m; [reflexivity | | | reflexivity | lia].
  - rewrite Pos2Z.inj_xI. apply Z.div_unique with (r := 1); lia.
  - rewrite Pos2Z.inj_xO. apply Z.div_unique with (r := 0); lia.
Qed.

Lemma iter_shr_1_m (n : positive) :
  forall mrs, 0 <= shr_m mrs ->
    shr_m (SpecFloat.iter_pos shr_1 n mrs) = shr_m mrs / 2 ^ Z.pos n.
Proof.
  assert (Hpos : forall k, 0 < 2 ^ Z.pos k) by (intros; apply Z.pow_pos_nonneg; lia).
  assert (Hne : forall k, 2 ^ Z.pos k <> 0) by (intros k; specialize (Hpos k); lia).
  assert (Hdiv : forall m k, 0 <= m -> 0 <= m / 2 ^ Z.pos k)
    by (intros; apply Z.div_pos; [lia | apply Hpos]).
  induction n as [n IH | n IH |]; intros mrs Hm; simpl SpecFloat.iter_pos.
  - assert (H1 : 0 <= shr_m (shr_1 mrs))
      by (rewrite shr_1_m by lia; apply Z.div_pos; lia).
    rewrite IH by (rewrite IH by lia; apply Hdiv; lia).
    rewrite IH by lia. rewrite shr_1_m by lia.
    rewrite Z.div_div by (try apply Hpos; lia).
    rewrite Z.div_div by (try apply Hpos; specialize (Hpos n); lia).
    f_equal. rewrite Pos2Z.inj_xI.
    replace (2 * Z.pos n + 1) with (1 + Z.pos n + Z.pos n) by lia.
    rewrite (Z.pow_add_r 2 (1 + Z.pos n) (Z.pos n)) by lia.
    rewrite (Z.pow_add_r 2 1 (Z.pos n)) by lia.
    change (2 ^ 1) with 2. lia.
  - rewrite IH by (rewrite IH by lia; apply Hdiv; lia).
    rewrite IH by lia.
    rewrite Z.div_div by (try apply Hpos; apply Hne).
    f_equal. rewrite <- Z.pow_add_r by lia. f_equal. lia.
  - rewrite shr_1_m by lia. reflexivity.
Qed.

Lemma shr_record_of_loc_m (m : Z) (l : SpecFloat.location) :
  shr_m (shr_record_of_loc m l) = m.
Proof. destruct l as [| []]; reflexivity. Qed.

(** The first step of rounding: the mantissa is shifted so that the exponent
    becomes the canonical one, if that is larger. *)
Lemma shr_fexp_spec (m e : Z) (l : SpecFloat.location) :
  0 <= m ->
  exists mrs,
    shr_fexp prec emax m e l = (mrs, Z.max e (fexp prec emax (Zdigits2 m + e))) /\
    shr_m mrs = m / 2 ^ (Z.max e (fexp prec emax (Zdigits2 m + e)) - e).
Proof.
  intros Hm. unfold shr_fexp, shr.
  destruct (fexp prec emax (Zdigits2 m + e) - e) as [| n | n] eqn:Hn.
  - eexists. split; [f_equal; lia |].
    rewrite shr_record_of_loc_m.
    replace (Z.max e (fexp prec emax (Zdigits2 m + e)) - e) with 0 by lia.
    now rewrite Z.div_1_r.
  - eexists. split; [f_equal; lia |].
    rewrite iter_shr_1_m by (rewrite shr_record_of_loc_m; lia).
    rewrite shr_record_of_loc_m. f_equal. f_equal. lia.
  - eexists. split; [f_equal; lia |].
    rewrite shr_record_of_loc_m.
    replace (Z.max e (fexp prec emax (Zdigits2 m + e)) - e) with 0 by lia.
    now rewrite Z.div_1_r.
Qed.

Lemma fexp_eq (x : Z) : fexp prec emax x = Z.max (x - 53) (-1074).
Proof. reflexivity. Qed.

Lemma round_nearest_even_bounds (m : Z) (l : SpecFloat.location) :
  m <= round_nearest_even m l <= m + 1.
Proof.
  unfold round_nearest_even. destruct l as [| []]; try lia.
  destruct (Z.even m); lia.
Qed.

Lemma Zdigits2_gt (m k : Z) : 0 <= k -> 2 ^ k <= m -> k < Zdigits2 m.
Proof.
  intros Hk Hm.
  assert (Hpos : 0 < 2 ^ k) by (apply Z.pow_pos_nonneg; lia).
  pose proof (Zdigits2_lt_pow m ltac:(lia)) as Hlt.
  pose proof (Zdigits2_nonneg m) as Hd.
  destruct (Z.lt_ge_cases k (Zdigits2 m)) as [| Hge]; [assumption |].
  assert (2 ^ Zdigits2 m <= 2 ^ k) by (apply Z.pow_le_mono_r; lia). lia.
Qed.

Lemma Zdigits2_pow_le (m : Z) : 0 < m -> 2 ^ (Zdigits2 m - 1) <= m.
Proof.
  intros Hm. destruct m as [| p | p]; [lia | | lia].
  apply digits2_pos_bounds.
Qed.

(** *** Locations through the steps of rounding *)

Lemma new_location_located (b q r N : Z) :
  0 < b -> 0 <= r < b -> N = b * q + r ->
  located N b q (new_location b r).
Proof.
  intros Hb Hr ->. unfold new_location, new_location_even, new_location_odd.
  destruct (Z.even b) eqn:Hev.
  - destruct (Z.eqb_spec r 0) as [-> | Hne]; [simpl; lia |].
    destruct (Z.compare_spec (2 * r) b); simpl; lia.
  - destruct (Z.eqb_spec r 0) as [-> | Hne]; [simpl; lia |].
    assert (Hodd : Z.odd b = true) by (rewrite <- Z.negb_even, Hev; reflexivity).
    apply Z.odd_spec in Hodd as [k ->].
    destruct (Z.compare_spec (2 * r + 1) (2 * k + 1)); simpl; lia.
Qed.

Lemma loc_of_shr_record_of_loc (m : Z) (l : SpecFloat.location) :
  loc_of_shr_record (shr_record_of_loc m l) = l.
Proof. destruct l as [| []]; reflexivity. Qed.

Lemma shr_1_located (N D : Z) (mrs : shr_record) :
  0 < D -> 0 <= shr_m mrs ->
  located N D (shr_m mrs) (loc_of_shr_record mrs) ->
  located N (2 * D) (shr_m (shr_1 mrs)) (loc_of_shr_record (shr_1 mrs)).
Proof.
  intros HD Hm. destruct mrs as [m r s].
  cbn [shr_m] in Hm.
  destruct m as [| [p | p |] | p]; [| | | | lia];
    destruct r, s;
    cbn [shr_1 shr_m loc_of_shr_record located orb];
    try rewrite (Pos2Z.inj_xI p); try rewrite (Pos2Z.inj_xO p);
    intros Hloc; lia.
Qed.

Lemma iter_shr_1_located (N : Z) (n : positive) :
  forall D mrs, 0 < D -> 0 <= shr_m mrs ->
    located N D (shr_m mrs) (loc_of_shr_record mrs) ->
    located N (D * 2 ^ Z.pos n) (shr_m (SpecFloat.iter_pos shr_1 n mrs))
            (loc_of_shr_record (SpecFloat.iter_pos shr_1 n mrs)).
Proof.
  assert (Hpos : forall k, 0 < 2 ^ Z.pos k) by (intros; apply Z.pow_pos_nonneg; lia).
  assert (Hnn : forall k mrs, 0 <= shr_m mrs ->
                  0 <= shr_m (SpecFloat.iter_pos shr_1 k mrs)).
  { intros k mrs H. rewrite iter_shr_1_m by exact H.
    apply Z.div_pos; [exact H | apply Hpos]. }
  assert (Hnn1 : forall mrs, 0 <= shr_m mrs -> 0 <= shr_m (shr_1 mrs)).
  { intros mrs H. rewrite shr_1_m by exact H. apply Z.div_pos; lia. }
  assert (HxO : forall k, 2 ^ Z.pos k~0 = 2 ^ Z.pos k * 2 ^ Z.pos k).
  { intros k. rewrite <- Z.pow_add_r by lia. f_equal. lia. }
  assert (HxI : forall k, 2 ^ Z.pos k~1 = 2 * (2 ^ Z.pos k * 2 ^ Z.pos k)).
  { intros k. rewrite <- Z.pow_add_r by lia. rewrite <- Z.pow_succ_r by lia.
    f_equal. lia. }
  induction n as [n IH | n IH |]; intros D mrs HD Hm Hloc; simpl SpecFloat.iter_pos.
  - replace (D * 2 ^ Z.pos n~1) with (2 * D * 2 ^ Z.pos n * 2 ^ Z.pos n)
      by (rewrite HxI; lia).
    apply IH; [specialize (Hpos n); nia | apply Hnn, Hnn1, Hm |].
    apply IH; [lia | apply Hnn1, Hm |]. now apply shr_1_located.
  - replace (D * 2 ^ Z.pos n~0) with (D * 2 ^ Z.pos n * 2 ^ Z.pos n)
      by (rewrite HxO; lia).
    apply IH; [specialize (Hpos n); nia | apply Hnn, Hm |].
    now apply IH.
  - change (2 ^ 1) with 2. rewrite (Z.mul_comm D 2). now apply shr_1_located.
Qed.

(** The first step of rounding keeps track of where the value lies. *)
Lemma shr_fexp_located (N D m e : Z) (l : SpecFloat.location) :
  0 <= m -> 0 < D -> located N D m l ->
  exists mrs,
    shr_fexp prec emax m e l = (mrs, Z.max e (fexp prec emax (Zdigits2 m + e))) /\
    shr_m mrs = m / 2 ^ (Z.max e (fexp prec emax (Zdigits2 m + e)) - e) /\
    located N (D * 2 ^ (Z.max e (fexp prec emax (Zdigits2 m + e)) - e))
            (shr_m mrs) (loc_of_shr_record mrs).
Proof.
  intros Hm HD Hloc. unfold shr_fexp, shr.
  destruct (fexp prec emax (Zdigits2 m + e) - e) as [| n | n] eqn:Hn.
  - eexists. split; [f_equal; lia |].
    rewrite shr_record_of_loc_m, loc_of_shr_record_of_loc.
    replace (Z.max e (fexp prec emax (Zdigits2 m + e)) - e) with 0 by lia.
    rewrite Z.div_1_r, Z.mul_1_r. split; [reflexivity | exact Hloc].
  - eexists. split; [f_equal; lia |].
    replace (Z.max e (fexp prec emax (Zdigits2 m + e)) - e) with (Z.pos n) by lia.
    split.
    + rewrite iter_shr_1_m by (rewrite shr_record_of_loc_m; lia).
      now rewrite shr_record_of_loc_m.
    + apply iter_shr_1_located; [exact HD | rewrite shr_record_of_loc_m; lia |].
      now rewrite shr_record_of_loc_m, loc_of_shr_record_of_loc.
  - eexists. split; [f_equal; lia |].
    rewrite shr_record_of_loc_m, loc_of_shr_record_of_loc.
    replace (Z.max e (fexp prec emax (Zdigits2 m + e)) - e) with 0 by lia.
    rewrite Z.div_1_r, Z.mul_1_r. split; [reflexivity | exact Hloc].
Qed.

(** Rounding to nearest moves at most half a unit away from the value. *)
Lemma round_nearest_even_near (N D m : Z) (l : SpecFloat.location) :
  0 < D -> located N D m l ->
  Z.abs (2 * (round_nearest_even m l * D) - 2 * N) <= D.
Proof.
  intros HD Hloc. unfold round_nearest_even.
  destruct l as [| []]; simpl in Hloc; try (destruct (Z.even m)); lia.
Qed.

(** *** Rounding a value of the unit interval *)

(** Rounding a mantissa [q] at exponent [e] that stands for a value below
    one: the outcome has a canonical mantissa and exponent, is at most one,
    and is within half a unit of the value [N / D] that [q] was cut from. *)
Lemma binary_round_aux_unit (q e N D : Z) (l : SpecFloat.location) :
  0 <= q < 2 ^ (- e) ->
  -1074 <= e <= -53 ->
  0 < D ->
  located N D q l ->
  2 ^ 52 <= q \/ e = -1074 ->
  exists m ef,
    binary_round_aux prec emax false q e l =
      match m with
      | Z0 => S754_zero false
      | Z.pos p => S754_finite false p ef
      | Z.neg _ => S754_nan
      end /\
    0 <= m < 2 ^ 53 /\
    e <= ef <= -52 /\
    (ef = -52 -> m = 2 ^ 52) /\
    ef = Z.max (Zdigits2 m + ef - 53) (-1074) /\
    Z.abs (2 * (m * (D * 2 ^ (ef - e))) - 2 * N) <= D * 2 ^ (ef - e).
Proof.
  intros [Hq0 Hq] He HD Hloc Hbig. unfold binary_round_aux.
  assert (Hdq : Zdigits2 q <= - e) by (apply Zdigits2_upper; lia).
  pose proof (Zdigits2_nonneg q) as Hdq0.
  destruct (shr_fexp_located N D q e l Hq0 HD Hloc) as [mrs1 [-> [Hm1 Hloc1]]].
  rewrite fexp_eq in *.
  set (e1 := Z.max e (Z.max (Zdigits2 q + e - 53) (-1074))) in *.
  assert (He1 : -1074 <= e1 <= -53) by lia.
  assert (Hpow1 : 0 < 2 ^ (e1 - e)) by (apply Z.pow_pos_nonneg; lia).
  set (D1 := D * 2 ^ (e1 - e)) in *.
  assert (HD1 : 0 < D1) by (apply Z.mul_pos_pos; assumption).
  assert (Hm1lo : 0 <= shr_m mrs1) by (rewrite Hm1; apply Z.div_pos; lia).
  assert (Hm1hi : shr_m mrs1 < 2 ^ 53).
  { rewrite Hm1. apply Z.div_lt_upper_bound; [exact Hpow1 |].
    rewrite <- Z.pow_add_r by lia.
    apply Z.lt_le_trans with (2 ^ Zdigits2 q); [apply Zdigits2_lt_pow; lia |].
    apply Z.pow_le_mono_r; lia. }
  assert (Hcanon1 : e1 = -1074 \/ 2 ^ 52 <= shr_m mrs1).
  { destruct (Z.le_gt_cases 53 (Zdigits2 q)) as [Hge | Hlt].
    - right. assert (Hqpos : 0 < q) by (destruct q; simpl in Hge; lia).
      rewrite Hm1. replace (e1 - e) with (Zdigits2 q - 53) by lia.
      apply Z.div_le_lower_bound; [apply Z.pow_pos_nonneg; lia |].
      rewrite <- Z.pow_add_r by lia.
      replace (Zdigits2 q - 53 + 52) with (Zdigits2 q - 1) by lia.
      now apply Zdigits2_pow_le.
    - left. destruct Hbig as [Hbig | ->]; [| lia].
      assert (52 < Zdigits2 q) by (apply Zdigits2_gt; lia). lia. }
  pose proof (round_nearest_even_bounds (shr_m mrs1) (loc_of_shr_record mrs1)) as Hr.
  pose proof (round_nearest_even_near N D1 _ _ HD1 Hloc1) as Hnear.
  set (m2 := round_nearest_even (shr_m mrs1) (loc_of_shr_record mrs1)) in *.
  assert (Hm2 : 0 <= m2 <= 2 ^ 53) by lia.
  destruct (shr_fexp_spec m2 e1 loc_Exact (proj1 Hm2)) as [mrs2 [-> Hm3]].
  rewrite fexp_eq in *.
  destruct (Z.eq_dec m2 (2 ^ 53)) as [Heq | Hne].
  - (* the rounding carried into a 54th digit *)
    rewrite Heq in Hm3, Hnear |- *.
    change (Zdigits2 (2 ^ 53)) with 54 in *.
    replace (Z.max e1 (Z.max (54 + e1 - 53) (-1074))) with (e1 + 1) in * by lia.
    replace (e1 + 1 - e1) with 1 in Hm3 by lia.
    change (2 ^ 53 / 2 ^ 1) with (Z.pos 4503599627370496) in Hm3.
    rewrite Hm3.
    destruct (Z.leb_spec (e1 + 1) (emax - prec)) as [_ | Hbad];
      [| unfold emax, prec in Hbad; lia].
    exists (Z.pos 4503599627370496), (e1 + 1).
    split; [reflexivity |]. split; [split; [lia | reflexivity] |].
    split; [lia |]. split; [intros _; reflexivity |].
    split; [change (Zdigits2 (Z.pos 4503599627370496)) with 53; lia |].
    replace (D * 2 ^ (e1 + 1 - e)) with (2 * D1).
    + change (2 ^ 53) with 9007199254740992 in Hnear. lia.
    + unfold D1. replace (e1 + 1 - e) with (Z.succ (e1 - e)) by lia.
      rewrite Z.pow_succ_r by lia. lia.
  - assert (Hlt : m2 < 2 ^ 53) by lia.
    assert (Hd2 : Zdigits2 m2 <= 53) by (apply Zdigits2_upper; lia).
    replace (Z.max e1 (Z.max (Zdigits2 m2 + e1 - 53) (-1074))) with e1 in * by lia.
    replace (e1 - e1) with 0 in Hm3 by lia.
    rewrite Z.div_1_r in Hm3. rewrite Hm3.
    assert (Hcanon2 : e1 = Z.max (Zdigits2 m2 + e1 - 53) (-1074)).
    { destruct Hcanon1 as [-> | Hbig1]; [lia |].
      assert (52 < Zdigits2 m2) by (apply Zdigits2_gt; lia). lia. }
    exists m2, e1.
    split.
    { destruct m2 as [| p | p]; [reflexivity | | lia].
      destruct (Z.leb_spec e1 (emax - prec)) as [_ | Hbad];
        [reflexivity | unfold emax, prec in Hbad; lia]. }
    split; [lia |]. split; [lia |]. split; [lia |].
    split; [exact Hcanon2 | exact Hnear].
Qed.

(** The integer division at the heart of [a / b], for [0 < a < b]: the
    quotient mantissa stands for a value below one, its location is the one
    of the exact quotient, and it has 53 digits or more unless the exponent
    is the least one. *)
Lemma div_core_unit (a b : Z) :
  0 < a < b ->
  exists q e l,
    SFdiv_core_binary prec emax a 0 b 0 = (q, e, l) /\
    0 <= q < 2 ^ (- e) /\
    -1074 <= e <= -53 /\
    located (a * 2 ^ (- e)) b q l /\
    (2 ^ 52 <= q \/ e = -1074).
Proof.
  intros [Ha Hab]. unfold SFdiv_core_binary.
  assert (Hd : Zdigits2 a <= Zdigits2 b).
  { apply Zdigits2_upper; [lia | apply Zdigits2_nonneg |].
    apply Z.lt_trans with b; [exact Hab | apply Zdigits2_lt_pow; lia]. }
  pose proof (Zdigits2_pow_le a Ha) as Halo.
  pose proof (Zdigits2_lt_pow b ltac:(lia)) as Hbhi.
  assert (Hda : 0 < Zdigits2 a) by (destruct a; simpl; lia).
  rewrite fexp_eq.
  replace (Z.min (Z.max (Zdigits2 a + 0 - (Zdigits2 b + 0) - 53) (-1074)) (0 - 0))
    with (Z.max (Zdigits2 a - Zdigits2 b - 53) (-1074)) by lia.
  set (e := Z.max (Zdigits2 a - Zdigits2 b - 53) (-1074)).
  assert (He : -1074 <= e <= -53) by lia.
  replace (0 - 0 - e) with (- e) by lia.
  destruct (- e) as [| s | s] eqn:Hs; [lia | | lia].
  rewrite Z.shiftl_mul_pow2 by lia.
  assert (Hpow : 0 < 2 ^ Z.pos s) by (apply Z.pow_pos_nonneg; lia).
  pose proof (Z.div_eucl_eq (a * 2 ^ Z.pos s) b ltac:(lia)) as Heucl.
  pose proof (Z.mod_pos_bound (a * 2 ^ Z.pos s) b ltac:(lia)) as Hmod.
  unfold Z.modulo in Hmod.
  destruct (Z.div_eucl (a * 2 ^ Z.pos s) b) as [q r].
  exists q, e, (new_location b r). split; [reflexivity |].
  rewrite Hs.
  assert (Hbig : e = -1074 \/ b * 2 ^ 52 <= a * 2 ^ Z.pos s).
  { destruct (Z.eq_dec e (-1074)) as [| Hne]; [left; assumption | right].
    assert (Hse : Z.pos s = 53 + Zdigits2 b - Zdigits2 a) by lia.
    apply Z.le_trans with (2 ^ Zdigits2 b * 2 ^ 52).
    - apply Z.mul_le_mono_nonneg_r; lia.
    - apply Z.le_trans with (2 ^ (Zdigits2 a - 1) * 2 ^ Z.pos s).
      + rewrite <- !Z.pow_add_r by lia. apply Z.pow_le_mono_r; lia.
      + apply Z.mul_le_mono_nonneg_r; lia. }
  set (P := 2 ^ Z.pos s) in *.
  assert (HaP : a * P < b * P) by (apply Z.mul_lt_mono_pos_r; lia).
  assert (Hq0 : 0 <= q).
  { destruct (Z.le_gt_cases 0 q) as [| Hneg]; [assumption |].
    assert (b * q <= b * -1) by (apply Z.mul_le_mono_nonneg_l; lia). lia. }
  assert (HqP : q < P).
  { destruct (Z.lt_ge_cases q P) as [| Hge]; [assumption |].
    assert (b * P <= b * q) by (apply Z.mul_le_mono_nonneg_l; lia). lia. }
  split; [split; assumption |]. split; [exact He |].
  split; [apply new_location_located; lia |].
  destruct Hbig as [-> | Hbig]; [right; reflexivity | left].
  destruct (Z.le_gt_cases (2 ^ 52) q) as [| Hlt]; [assumption |].
  assert (b * (q + 1) <= b * 2 ^ 52) by (apply Z.mul_le_mono_nonneg_l; lia).
  lia.
Qed.

(** [a / b] for integers [0 <= a <= b], [0 < b]: no exception, and a float
    between zero and one that is a nearest binary64 value of the quotient. *)
Lemma truediv_unit_interval (a b : Z) :
  0 <= a <= b -> 0 < b ->
  exists f,
    truediv a b = Ok f /\
    leb zero f = true /\
    leb f one = true /\
    nearest_of_quotient a b f.
Proof.
  intros [Ha Hab] Hb. unfold truediv.
  destruct (Z.eqb_spec b 0) as [| _]; [lia |].
  destruct (Z.eqb_spec a 0) as [-> | Hne].
  { destruct (Z.ltb_spec b 0); [lia |]. exists (S754_zero false).
    repeat split; try reflexivity; try lia. }
  destruct (Z.ltb_spec a 0); [lia |]. destruct (Z.ltb_spec b 0); [lia |].
  rewrite !Z.abs_eq by lia. simpl xorb.
  destruct (Z.eq_dec a b) as [<- | Hlt].
  - (* the quotient is exactly one *)
    unfold SFdiv_core_binary.
    replace (Zdigits2 a + 0 - (Zdigits2 a + 0)) with 0 by lia.
    change (Z.min (fexp prec emax 0) (0 - 0)) with (-53).
    change (0 - 0 - -53) with 53.
    rewrite Z.shiftl_mul_pow2 by lia.
    pose proof (Z.div_eucl_eq (a * 2 ^ 53) a ltac:(lia)) as Heucl.
    pose proof (Z.mod_pos_bound (a * 2 ^ 53) a ltac:(lia)) as Hmod.
    unfold Z.modulo in Hmod.
    destruct (Z.div_eucl (a * 2 ^ 53) a) as [q r].
    assert (Hq : q = 2 ^ 53).
    { destruct (Z.lt_trichotomy q (2 ^ 53)) as [Hlt | [Heq | Hgt]]; [| exact Heq |].
      - assert (a * (q + 1) <= a * 2 ^ 53) by (apply Z.mul_le_mono_nonneg_l; lia).
        lia.
      - assert (a * 2 ^ 53 <= a * (q - 1)) by (apply Z.mul_le_mono_nonneg_l; lia).
        lia. }
    assert (Hr : r = 0) by (subst q; lia). subst q r.
    assert (Hloc : new_location a 0 = loc_Exact)
      by (unfold new_location; destruct (Z.even a); reflexivity).
    rewrite Hloc. exists one.
    repeat split; try reflexivity; try lia.
  - destruct (div_core_unit a b ltac:(lia))
      as [q [e [l [-> [Hq [He [Hloc Hbig]]]]]]].
    destruct (binary_round_aux_unit q e (a * 2 ^ (- e)) b l Hq He Hb Hloc Hbig)
      as [m [ef [-> [Hm [Hef [Hone [Hcanon Hnear]]]]]]].
    assert (Hhalf : half_unit_near a b m ef).
    { split; [lia |].
      assert (HP : 0 < 2 ^ (ef - e)) by (apply Z.pow_pos_nonneg; lia).
      set (P := 2 ^ (ef - e)) in *.
      assert (Hsplit : 2 ^ (- e) = 2 ^ (- ef) * P).
      { unfold P. rewrite <- Z.pow_add_r by lia. f_equal. lia. }
      rewrite Hsplit in Hnear.
      replace (2 * (m * (b * P)) - 2 * (a * (2 ^ (- ef) * P)))
        with ((2 * (m * b) - 2 * (a * 2 ^ (- ef))) * P) in Hnear by lia.
      rewrite Z.abs_mul, (Z.abs_eq P) in Hnear by lia.
      apply Z.mul_le_mono_pos_r with P; assumption. }
    destruct m as [| p | p]; [| | lia].
    + (* rounded to zero: the exponent is the least one *)
      simpl Zdigits2 in Hcanon.
      assert (ef = -1074) by lia. subst ef.
      exists (S754_zero false). repeat split; try reflexivity; apply Hhalf.
    + exists (S754_finite false p ef).
      split; [reflexivity |]. split; [reflexivity |]. split.
      { unfold leb, SFleb, one, SFcompare.
        destruct (Z.compare_spec ef (-52)) as [Hc | Hc | Hc];
          [| reflexivity | lia].
        specialize (Hone Hc). injection Hone as ->. reflexivity. }
      split; [| exact Hhalf].
      unfold valid_binary, bounded, canonical_mantissa.
      rewrite fexp_eq. simpl Zdigits2 in Hcanon.
      apply andb_true_iff. split.
      * apply Z.eqb_eq. lia.
      * apply Z.leb_le. unfold emax, prec. lia.
Qed.

(** The comparisons against the three thresholds, which share the exponent
    -53: the order is the one of the mantissas and the signs. *)
Lemma geb_threshold_mono (h : float) (m1 m2 : positive) :
  (m1 <= m2)%positive ->
  geb h (S754_finite false m2 (-53)) = true ->
  geb h (S754_finite false m1 (-53)) = true.
Proof.
  intros Hm. unfold geb, SFleb, SFcompare.
  destruct h as [s | s | | s m e]; try (destruct s); try discriminate; try reflexivity.
  destruct (Z.compare_spec (-53) e) as [Hc | Hc | Hc]; try reflexivity; try discriminate.
  rewrite !Pos.compare_cont_spec. simpl Pos.switch_Eq.
  destruct (Pos.compare_spec m2 m) as [H2 | H2 | H2]; try discriminate;
    intros _; destruct (Pos.compare_spec m1 m) as [H1 | H1 | H1];
    try reflexivity; lia.
Qed.

(** Among numbers, [not (h >= t)] is [h < t]. *)
Lemma geb_false_ltb (h t : float) :
  h <> S754_nan -> t <> S754_nan ->
  geb h t = false -> ltb h t = true.
Proof.
  intros Hh Ht. unfold geb, ltb, SFleb, SFltb, SFcompare.
  destruct h as [s | s | | s m e]; try congruence;
    destruct t as [s' | s' | | s' m' e']; try congruence;
    try (destruct s); try (destruct s'); try discriminate; try reflexivity.
  - destruct (Z.compare_spec e' e), (Z.compare_spec e e');
      try discriminate; try reflexivity; try lia.
    subst. rewrite !Pos.compare_cont_spec. simpl Pos.switch_Eq.
    rewrite (Pos.compare_antisym m m').
    destruct (m ?= m')%positive; simpl; try discriminate; reflexivity.
  - destruct (Z.compare_spec e' e), (Z.compare_spec e e');
      try discriminate; try reflexivity; try lia.
    subst. rewrite !Pos.compare_cont_spec. simpl Pos.switch_Eq.
    rewrite (Pos.compare_antisym m m').
    destruct (m ?= m')%positive; simpl; try discriminate; reflexivity.
Qed.

Lemma ltb_geb_false (h t : float) : ltb h t = true -> geb h t = false.
Proof.
  unfold geb, ltb, SFleb, SFltb, SFcompare.
  destruct h as [s | s | | s m e]; try discriminate;
    destruct t as [s' | s' | | s' m' e']; try discriminate;
    try (destruct s); try (destruct s'); try discriminate; try reflexivity.
  - destruct (Z.compare_spec e' e), (Z.compare_spec e e');
      try discriminate; try reflexivity; try lia.
    subst. rewrite !Pos.compare_cont_spec. simpl Pos.switch_Eq.
    rewrite (Pos.compare_antisym m m').
    destruct (m ?= m')%positive; simpl; try discriminate; reflexivity.
  - destruct (Z.compare_spec e' e), (Z.compare_spec e e');
      try discriminate; try reflexivity; try lia.
    subst. rewrite !Pos.compare_cont_spec. simpl Pos.switch_Eq.
    rewrite (Pos.compare_antisym m m').
    destruct (m ?= m')%positive; simpl; try discriminate; reflexivity.
Qed.

(** A float between zero and one is a number. *)
Lemma leb_not_nan (x y : float) : leb x y = true -> x <> S754_nan /\ y <> S754_nan.
Proof.
  unfold leb, SFleb, SFcompare.
  destruct x as [s | s | | s m e]; destruct y as [s' | s' | | s' m' e'];
    try discriminate; split; discriminate.
Qed.

End PyFloatFacts.

(** ** Rounding in general, and the product by 100.0 *)

Module PyFloatRounding.
Import PyFloat PyFloatFacts.

(** Rounding a mantissa [q >= 0] at exponent [e], cut from the value [N / D],
    when [q] has 53 digits or more or [e] is at most the least exponent: the
    outcome is a zero, a float with a canonical mantissa and exponent, or an
    infinity when that exponent is beyond the largest one; the (mantissa,
    exponent) that it stands for is within half a unit of [N / D]. *)
Lemma binary_round_aux_nearest (s : bool) (q e N D : Z) (l : SpecFloat.location) :
  0 <= q ->
  0 < D ->
  located N D q l ->
  2 ^ 52 <= q \/ e <= -1074 ->
  exists m ef,
    binary_round_aux prec emax s q e l =
      match m with
      | Z0 => S754_zero s
      | Z.pos p => if ef <=? 971 then S754_finite s p ef else S754_infinity s
      | Z.neg _ => S754_nan
      end /\
    0 <= m < 2 ^ 53 /\
    e <= ef /\
    ef = Z.max (Zdigits2 m + ef - 53) (-1074) /\
    Z.abs (2 * (m * (D * 2 ^ (ef - e))) - 2 * N) <= D * 2 ^ (ef - e).
Proof.
  intros Hq0 HD Hloc Hbig. unfold binary_round_aux.
  pose proof (Zdigits2_nonneg q) as Hdq0.
  assert (Hdq : 53 <= Zdigits2 q \/ e <= -1074).
  { destruct Hbig as [Hbig | Hbig]; [left | right; exact Hbig].
    assert (52 < Zdigits2 q) by (apply Zdigits2_gt; lia). lia. }
  destruct (shr_fexp_located N D q e l Hq0 HD Hloc) as [mrs1 [-> [Hm1 Hloc1]]].
  rewrite fexp_eq in *.
  set (e1 := Z.max e (Z.max (Zdigits2 q + e - 53) (-1074))) in *.
  assert (He1 : e <= e1 /\ -1074 <= e1 /\ Zdigits2 q + e - 53 <= e1) by lia.
  assert (He1' : e1 = Z.max (Zdigits2 q + e - 53) (-1074)) by lia.
  assert (Hpow1 : 0 < 2 ^ (e1 - e)) by (apply Z.pow_pos_nonneg; lia).
  set (D1 := D * 2 ^ (e1 - e)) in *.
  assert (HD1 : 0 < D1) by (apply Z.mul_pos_pos; assumption).
  assert (Hm1lo : 0 <= shr_m mrs1) by (rewrite Hm1; apply Z.div_pos; lia).
  assert (Hm1hi : shr_m mrs1 < 2 ^ 53).
  { rewrite Hm1. apply Z.div_lt_upper_bound; [exact Hpow1 |].
    rewrite <- Z.pow_add_r by lia.
    apply Z.lt_le_trans with (2 ^ Zdigits2 q); [apply Zdigits2_lt_pow; lia |].
    apply Z.pow_le_mono_r; lia. }
  assert (Hcanon1 : e1 = -1074 \/ 2 ^ 52 <= shr_m mrs1).
  { destruct (Z.eq_dec e1 (-1074)) as [| Hne]; [left; assumption | right].
    assert (Hge : 53 <= Zdigits2 q) by lia.
    assert (Hqpos : 0 < q) by (destruct q; simpl in Hge; lia).
    rewrite Hm1. replace (e1 - e) with (Zdigits2 q - 53) by lia.
    apply Z.div_le_lower_bound; [apply Z.pow_pos_nonneg; lia |].
    rewrite <- Z.pow_add_r by lia.
    replace (Zdigits2 q - 53 + 52) with (Zdigits2 q - 1) by lia.
    now apply Zdigits2_pow_le. }
  pose proof (round_nearest_even_bounds (shr_m mrs1) (loc_of_shr_record mrs1)) as Hr.
  pose proof (round_nearest_even_near N D1 _ _ HD1 Hloc1) as Hnear.
  set (m2 := round_nearest_even (shr_m mrs1) (loc_of_shr_record mrs1)) in *.
  assert (Hm2 : 0 <= m2 <= 2 ^ 53) by lia.
  destruct (shr_fexp_spec m2 e1 loc_Exact (proj1 Hm2)) as [mrs2 [-> Hm3]].
  rewrite fexp_eq in *.
  destruct (Z.eq_dec m2 (2 ^ 53)) as [Heq | Hne].
  - (* the rounding carried into a 54th digit *)
    rewrite Heq in Hm3, Hnear |- *.
    change (Zdigits2 (2 ^ 53)) with 54 in *.
    replace (Z.max e1 (Z.max (54 + e1 - 53) (-1074))) with (e1 + 1) in * by lia.
    replace (e1 + 1 - e1) with 1 in Hm3 by lia.
    change (2 ^ 53 / 2 ^ 1) with (Z.pos 4503599627370496) in Hm3.
    rewrite Hm3.
    exists (Z.pos 4503599627370496), (e1 + 1).
    split; [reflexivity |]. split; [split; [lia | reflexivity] |].
    split; [lia |].
    split; [change (Zdigits2 (Z.pos 4503599627370496)) with 53; lia |].
    replace (D * 2 ^ (e1 + 1 - e)) with (2 * D1).
    + change (2 ^ 53) with 9007199254740992 in Hnear. lia.
    + unfold D1. replace (e1 + 1 - e) with (Z.succ (e1 - e)) by lia.
      rewrite Z.pow_succ_r by lia. lia.
  - assert (Hlt : m2 < 2 ^ 53) by lia.
    assert (Hd2 : Zdigits2 m2 <= 53) by (apply Zdigits2_upper; lia).
    replace (Z.max e1 (Z.max (Zdigits2 m2 + e1 - 53) (-1074))) with e1 in * by lia.
    replace (e1 - e1) with 0 in Hm3 by lia.
    rewrite Z.div_1_r in Hm3. rewrite Hm3.
    assert (Hcanon2 : e1 = Z.max (Zdigits2 m2 + e1 - 53) (-1074)).
    { destruct Hcanon1 as [-> | Hbig1]; [lia |].
      assert (52 < Zdigits2 m2) by (apply Zdigits2_gt; lia). lia. }
    exists m2, e1.
    split; [destruct m2 as [| p | p]; [reflexivity | reflexivity | lia] |].
    split; [lia |]. split; [lia |].
    split; [exact Hcanon2 | exact Hnear].
Qed.

(** A canonical mantissa and exponent within the largest exponent make a
    valid float. *)
Lemma canonical_valid (s : bool) (p : positive) (e : Z) :
  e = Z.max (Zdigits2 (Z.pos p) + e - 53) (-1074) ->
  e <= 971 ->
  valid_binary prec emax (S754_finite s p e) = true.
Proof.
  intros Hc He. unfold valid_binary, bounded, canonical_mantissa.
  rewrite fexp_eq. simpl Zdigits2 in Hc.
  apply andb_true_iff. split.
  - apply Z.eqb_eq. lia.
  - apply Z.leb_le. unfold emax, prec. lia.
Qed.

Lemma valid_canonical (s : bool) (p : positive) (e : Z) :
  valid_binary prec emax (S754_finite s p e) = true ->
  e = Z.max (Zdigits2 (Z.pos p) + e - 53) (-1074) /\ e <= 971.
Proof.
  unfold valid_binary, bounded, canonical_mantissa.
  rewrite fexp_eq. simpl Zdigits2.
  intros H. apply andb_true_iff in H as [H1 H2].
  apply Z.eqb_eq in H1. apply Z.leb_le in H2. unfold emax, prec in H2. lia.
Qed.

(** The integer division at the heart of [a / b], for positive [a] and [b]:
    the quotient mantissa is located with respect to some value, and has 53
    digits or more unless the exponent is the least one. *)
Lemma div_core_located (a b : Z) :
  0 < a -> 0 < b ->
  exists q e l N,
    SFdiv_core_binary prec emax a 0 b 0 = (q, e, l) /\
    0 <= q /\
    located N b q l /\
    (2 ^ 52 <= q \/ e <= -1074).
Proof.
  intros Ha Hb. unfold SFdiv_core_binary.
  pose proof (Zdigits2_pow_le a Ha) as Halo.
  pose proof (Zdigits2_lt_pow b ltac:(lia)) as Hbhi.
  pose proof (Zdigits2_nonneg b) as Hdb.
  assert (Hda : 0 < Zdigits2 a) by (destruct a; simpl; lia).
  rewrite fexp_eq.
  replace (Z.min (Z.max (Zdigits2 a + 0 - (Zdigits2 b + 0) - 53) (-1074)) (0 - 0))
    with (Z.min (Z.max (Zdigits2 a - Zdigits2 b - 53) (-1074)) 0) by lia.
  set (e := Z.min (Z.max (Zdigits2 a - Zdigits2 b - 53) (-1074)) 0).
  replace (0 - 0 - e) with (- e) by lia.
  assert (He : -1074 <= e <= 0) by lia.
  assert (Hshift : match - e with
                   | 0 => a
                   | Z.pos _ => Z.shiftl a (- e)
                   | Z.neg _ => 0
                   end = a * 2 ^ (- e)).
  { destruct (- e) as [| k | k] eqn:Hk; [simpl; lia | | lia].
    rewrite Z.shiftl_mul_pow2 by lia. reflexivity. }
  rewrite Hshift.
  assert (Hpow : 0 < 2 ^ (- e)) by (apply Z.pow_pos_nonneg; lia).
  set (P := 2 ^ (- e)) in *.
  pose proof (Z.div_eucl_eq (a * P) b ltac:(lia)) as Heucl.
  pose proof (Z.mod_pos_bound (a * P) b ltac:(lia)) as Hmod.
  unfold Z.modulo in Hmod.
  destruct (Z.div_eucl (a * P) b) as [q r].
  exists q, e, (new_location b r), (a * P). split; [reflexivity |].
  assert (Hq0 : 0 <= q).
  { destruct (Z.le_gt_cases 0 q) as [| Hneg]; [assumption |].
    assert (b * q <= b * -1) by (apply Z.mul_le_mono_nonneg_l; lia). nia. }
  split; [exact Hq0 |].
  split; [apply new_location_located; lia |].
  destruct (Z.eq_dec e (-1074)) as [| Hne]; [right; lia | left].
  assert (Hbig : b * 2 ^ 52 <= a * P).
  { apply Z.le_trans with (2 ^ Zdigits2 b * 2 ^ 52);
      [apply Z.mul_le_mono_nonneg_r; lia |].
    apply Z.le_trans with (2 ^ (Zdigits2 a - 1) * P);
      [| apply Z.mul_le_mono_nonneg_r; lia].
    unfold P. rewrite <- !Z.pow_add_r by lia. apply Z.pow_le_mono_r; lia. }
  destruct (Z.le_gt_cases (2 ^ 52) q) as [| Hlt]; [assumption |].
  assert (b * (q + 1) <= b * 2 ^ 52) by (apply Z.mul_le_mono_nonneg_l; lia).
  lia.
Qed.

(** [a / b] by a positive [b], when it does not raise, is a zero or a valid
    binary64 float. *)
Lemma truediv_valid (a b : Z) (f : float) :
  0 < b ->
  truediv a b = Ok f ->
  (exists s, f = S754_zero s) \/
  (exists s m e, f = S754_finite s m e /\ valid_binary prec emax f = true).
Proof.
  intros Hb. unfold truediv.
  destruct (Z.eqb_spec b 0) as [| _]; [lia |].
  destruct (Z.eqb_spec a 0) as [-> | Hne].
  { intros H. injection H as <-. left. eauto. }
  rewrite (Z.abs_eq b) by lia.
  destruct (div_core_located (Z.abs a) b ltac:(lia) Hb)
    as [q [e [l [N [-> [Hq [Hloc Hbig]]]]]]].
  destruct (binary_round_aux_nearest (xorb (a <? 0) (b <? 0)) q e N b l Hq Hb Hloc Hbig)
    as [m [ef [-> [Hm [Hef [Hcanon _]]]]]].
  destruct m as [| p | p]; [| | lia].
  - intros H. injection H as <-. left. eauto.
  - destruct (Z.leb_spec ef 971) as [Hle | Hgt]; [| discriminate].
    intros H. injection H as <-. right. do 3 eexists. split; [reflexivity |].
    now apply canonical_valid.
Qed.

(** The product of a valid float by 100.0 is 100 times the float, rounded. *)
Lemma mul_hundred_rounded (s : bool) (m : positive) (e : Z) :
  valid_binary prec emax (S754_finite s m e) = true ->
  rounded_hundredfold (S754_finite s m e) (mul (S754_finite s m e) lit_100).
Proof.
  intros Hv. apply valid_canonical in Hv as [Hc He].
  unfold mul, lit_100, SFmul. rewrite xorb_false_r.
  rewrite Pos2Z.inj_mul.
  set (q := Z.pos m * Z.pos 7036874417766400).
  assert (Hm : 0 < Z.pos m) by lia.
  assert (Hq : q = Z.pos m * (100 * 2 ^ 46)) by reflexivity.
  assert (Hq0 : 0 <= q) by lia.
  assert (Hbig : 2 ^ 52 <= q \/ e + -46 <= -1074).
  { left. rewrite Hq. change (2 ^ 52) with (1 * (64 * 2 ^ 46)).
    change (2 ^ 46) with 70368744177664. lia. }
  assert (Hloc : located q 1 q loc_Exact) by (simpl; lia).
  destruct (binary_round_aux_nearest s q (e + -46) q 1 loc_Exact Hq0 ltac:(lia) Hloc Hbig)
    as [m' [ef [-> [Hm' [Hef [Hcanon Hnear]]]]]].
  rewrite !Z.mul_1_l in Hnear.
  replace (ef - (e + -46)) with (46 + (ef - e)) in Hnear by lia.
  (* a canonical mantissa has 53 digits above the least exponent *)
  assert (Hfull : forall x ex, 0 <= x -> ex = Z.max (Zdigits2 x + ex - 53) (-1074) ->
                    -1074 < ex -> 2 ^ 52 <= x).
  { intros x ex Hx Hcx Hex. assert (Hd : Zdigits2 x = 53) by lia.
    destruct (Z.eq_dec x 0) as [-> | Hx0]; [simpl in Hd; lia |].
    pose proof (Zdigits2_pow_le x ltac:(lia)) as H. rewrite Hd in H. exact H. }
  assert (He' : -1074 <= ef) by lia.
  assert (Hee : e <= ef).
  { destruct (Z.le_gt_cases e ef) as [| Hlt]; [assumption | exfalso].
    assert (Hmbig : 2 ^ 52 <= Z.pos m) by (apply (Hfull _ e); lia).
    assert (Hk : 2 ^ (46 + (ef - e)) <= 2 ^ 45) by (apply Z.pow_le_mono_r; lia).
    assert (Hk0 : 0 < 2 ^ (46 + (ef - e))) by (apply Z.pow_pos_nonneg; lia).
    set (K := 2 ^ (46 + (ef - e))) in *.
    change (2 ^ 45) with 35184372088832 in Hk.
    change (2 ^ 52) with 4503599627370496 in Hmbig.
    change (2 ^ 53) with 9007199254740992 in Hm'.
    change (2 ^ 46) with 70368744177664 in Hq.
    assert (m' * K <= 9007199254740992 * 35184372088832) by nia.
    lia. }
  rewrite Z.pow_add_r in Hnear by lia.
  assert (HJ : 0 < 2 ^ (ef - e)) by (apply Z.pow_pos_nonneg; lia).
  set (J := 2 ^ (ef - e)) in *.
  change (2 ^ 46) with 70368744177664 in Hnear, Hq.
  assert (Hhalf : Z.abs (2 * (m' * J) - 200 * Z.pos m) <= J).
  { rewrite Hq in Hnear.
    replace (2 * (m' * (70368744177664 * J)) - 2 * (Z.pos m * (100 * 70368744177664)))
      with ((2 * (m' * J) - 200 * Z.pos m) * 70368744177664) in Hnear by lia.
    rewrite Z.abs_mul in Hnear. simpl (Z.abs 70368744177664) in Hnear. lia. }
  destruct m' as [| p | p]; [| | lia].
  - (* the product is not rounded to zero *)
    exfalso. simpl Zdigits2 in Hcanon.
    assert (ef = e) by lia.
    assert (J = 1) by (unfold J; replace (ef - e) with 0 by lia; reflexivity).
    lia.
  - destruct (Z.leb_spec ef 971) as [Hle | Hgt]; cbn [rounded_hundredfold].
    + split; [reflexivity |]. split; [now apply canonical_valid |].
      split; [exact Hee | exact Hhalf].
    + split; [reflexivity |].
      assert (Hpbig : 2 ^ 52 <= Z.pos p) by (apply (Hfull _ ef); lia).
      assert (HJ' : 2 * 2 ^ (971 - e) <= J).
      { unfold J. rewrite <- Z.pow_succ_r by lia. apply Z.pow_le_mono_r; lia. }
      assert (HP : 0 < 2 ^ (971 - e)) by (apply Z.pow_pos_nonneg; lia).
      set (P := 2 ^ (971 - e)) in *.
      change (2 ^ 52) with 4503599627370496 in Hpbig.
      change (2 ^ 53 - 1) with 9007199254740991.
      nia.
Qed.

End PyFloatRounding.

(** ** The metrics reporter *)

#[local] Arguments PyFloat.truediv : simpl never.
#[local] Arguments PyFloat.mul : simpl never.
#[local] Arguments PyFloat.format_pct : simpl never.
#[local] Arguments PyFloat.format_f : simpl never.
#[local] Arguments pretty : simpl never.
#[local] Arguments String.append : simpl never.

(** What a successful call answers: the snapshot is the one computed from the
    counters of the INFO reply. *)
Lemma get_redis_cache_metrics_Some (w w1 : world) (m : metrics) :
  get_redis_cache_metrics w = (Ok (Some m), w1) ->
  conn_fault w = None /\ info_fault w = None /\
  exists r,
    ratio_of (stat w "keyspace_hits") (stat w "keyspace_misses") = Ok r /\
    m = {| hits := stat w "keyspace_hits";
           misses := stat w "keyspace_misses";
           total_requests := stat w "keyspace_hits" + stat w "keyspace_misses";
           hit_ratio := r;
           hit_ratio_percent := PyFloat.mul r PyFloat.lit_100 |}.
Proof.
  unfold get_redis_cache_metrics, ratio_of, stat. run_M.
  destruct (conn_fault w) as [e|]; simpl; [discriminate |].
  destruct (info_fault w) as [e|]; simpl; [discriminate |].
  destruct (0 <? _); simpl.
  - destruct (PyFloat.truediv _ _) as [r | e]; simpl; [| discriminate].
    intros H. injection H as <- _. eauto.
  - intros H. injection H as <- _. eauto.
Qed.

(** With the backend reachable, the call succeeds as soon as the division
    does. *)
Lemma get_redis_cache_metrics_run (w : world) (r : PyFloat.float) :
  conn_fault w = None -> info_fault w = None ->
  ratio_of (stat w "keyspace_hits") (stat w "keyspace_misses") = Ok r ->
  exists w1,
    get_redis_cache_metrics w =
      (Ok (Some {| hits := stat w "keyspace_hits";
                   misses := stat w "keyspace_misses";
                   total_requests := stat w "keyspace_hits" + stat w "keyspace_misses";
                   hit_ratio := r;
                   hit_ratio_percent := PyFloat.mul r PyFloat.lit_100 |}), w1).
Proof.
  intros Hc Hi. unfold get_redis_cache_metrics, ratio_of, stat. run_M.
  rewrite Hc. simpl. rewrite Hi. simpl.
  destruct (0 <? _); simpl.
  - intros ->. simpl. eauto.
  - intros H. injection H as <-. eauto.
Qed.

(** The reporter never raises: whatever happens inside is answered by a
    snapshot or by None. *)
Lemma get_redis_cache_metrics_total (w : world) :
  exists r w1, get_redis_cache_metrics w = (Ok r, w1).
Proof.
  unfold get_redis_cache_metrics. run_M.
  destruct (conn_fault w) as [e|]; simpl; [eauto |].
  destruct (info_fault w) as [e|]; simpl; [eauto |].
  destruct (0 <? _); simpl; [| eauto].
  destruct (PyFloat.truediv _ _) as [r | e]; simpl; eauto.
Qed.

(** With the backend unreachable, the reporter answers None. *)
Lemma get_redis_cache_metrics_fault (w : world) :
  is_Some (conn_fault w) \/ is_Some (info_fault w) ->
  exists w1, get_redis_cache_metrics w = (Ok None, w1).
Proof.
  intros H. unfold get_redis_cache_metrics. run_M.
  destruct (conn_fault w) as [e|]; simpl; [eauto |].
  destruct (info_fault w) as [e|]; simpl; [eauto |].
  destruct H as [[? H] | [? H]]; discriminate.
Qed.

(** C6: for non-negative counters the snapshot has total = hits + misses,
    hit_ratio = hits / total when the total is positive (the float that
    Python's division gives, a nearest binary64 value of the quotient) and 0.0
    when it is zero, and hit_ratio lies between 0 and 1. *)
Theorem metrics_ratio (w : world) (h mi : Z) :
  conn_fault w = None -> info_fault w = None ->
  stat w "keyspace_hits" = h -> stat w "keyspace_misses" = mi ->
  0 <= h -> 0 <= mi ->
  exists m w1,
    get_redis_cache_metrics w = (Ok (Some m), w1) /\
    hits m = h /\ misses m = mi /\
    total_requests m = h + mi /\
    (0 < h + mi ->
       PyFloat.truediv h (h + mi) = Ok (hit_ratio m) /\
       PyFloat.nearest_of_quotient h (h + mi) (hit_ratio m)) /\
    (h + mi = 0 -> hit_ratio m = PyFloat.zero) /\
    PyFloat.leb PyFloat.zero (hit_ratio m) = true /\
    PyFloat.leb (hit_ratio m) PyFloat.one = true.
Proof.
  intros Hc Hi Hh Hmi Hh0 Hmi0.
  assert (Hr : exists r, ratio_of h mi = Ok r /\
                         PyFloat.leb PyFloat.zero r = true /\
                         PyFloat.leb r PyFloat.one = true /\
                         (0 < h + mi -> PyFloat.nearest_of_quotient h (h + mi) r)).
  { unfold ratio_of. destruct (Z.ltb_spec 0 (h + mi)).
    - destruct (PyFloatFacts.truediv_unit_interval h (h + mi)) as [r [? [? [? ?]]]];
        [lia | lia |]. exists r. auto.
    - exists PyFloat.zero. split; [reflexivity |]. split; [reflexivity |].
      split; [reflexivity | lia]. }
  destruct Hr as [r [Hr [Hlo [Hhi Hnear]]]].
  destruct (get_redis_cache_metrics_run w r Hc Hi) as [w1 Hrun];
    [rewrite Hh, Hmi; exact Hr |].
  rewrite Hh, Hmi in Hrun.
  eexists. exists w1. split; [exact Hrun |]. simpl.
  split; [reflexivity |]. split; [reflexivity |]. split; [reflexivity |].
  unfold ratio_of in Hr. split; [| split; [| split; assumption]].
  - intros Hpos. split; [| now apply Hnear].
    destruct (Z.ltb_spec 0 (h + mi)); [exact Hr | lia].
  - intros Hz.
    destruct (Z.ltb_spec 0 (h + mi)); [lia | congruence].
Qed.

Lemma metrics_ratio_witness :
  conn_fault cold_world = None /\ info_fault cold_world = None /\
  stat cold_world "keyspace_hits" = 9 /\ stat cold_world "keyspace_misses" = 1 /\
  0 <= 9 /\ 0 <= 1 /\
  exists m w1,
    get_redis_cache_metrics cold_world = (Ok (Some m), w1) /\
    total_requests m = 10 /\
    PyFloat.truediv 9 10 = Ok (hit_ratio m).
Proof.
  assert (H9 : 0 <= 9) by lia. assert (H1 : 0 <= 1) by lia.
  assert (H10 : 0 < 9 + 1) by lia.
  repeat (split; [first [reflexivity | assumption] |]).
  destruct (metrics_ratio cold_world 9 1 eq_refl eq_refl eq_refl eq_refl H9 H1)
    as [m [w1 [Hrun [_ [_ [Ht [Hq _]]]]]]].
  exists m, w1. split; [exact Hrun |]. split; [exact Ht | exact (proj1 (Hq H10))].
Defined.

(** The ratio of a snapshot is a zero or a valid binary64 float. *)
Lemma ratio_of_valid (h mi : Z) (r : PyFloat.float) :
  ratio_of h mi = Ok r ->
  (exists s, r = S754_zero s) \/
  (exists s m e, r = S754_finite s m e /\
                 valid_binary PyFloat.prec PyFloat.emax r = true).
Proof.
  unfold ratio_of. destruct (Z.ltb_spec 0 (h + mi)) as [Hpos | _].
  - now apply PyFloatRounding.truediv_valid.
  - intros H. injection H as <-. left. exists false. reflexivity.
Qed.

(** C10, amended: in every snapshot, hit_ratio_percent is the binary64
    product of hit_ratio and 100.0 (the integer 100 converts exactly), that
    is, 100 times hit_ratio rounded to a binary64 value: a valid float of the
    sign of hit_ratio within half a unit in its last place of 100 times
    hit_ratio, a zero for a zero, and an infinity only when 100 times
    hit_ratio is no less than the largest binary64 value. *)
Theorem metrics_percent_rounded (w w1 : world) (m : metrics) :
  get_redis_cache_metrics w = (Ok (Some m), w1) ->
  hit_ratio_percent m = PyFloat.mul (hit_ratio m) PyFloat.lit_100 /\
  PyFloat.of_int 100 = Ok PyFloat.lit_100 /\
  PyFloat.rounded_hundredfold (hit_ratio m) (hit_ratio_percent m).
Proof.
  intros H. apply get_redis_cache_metrics_Some in H as [_ [_ [r [Hr ->]]]].
  split; [reflexivity |]. split; [reflexivity |].
  cbn [hit_ratio hit_ratio_percent].
  destruct (ratio_of_valid _ _ _ Hr) as [[s ->] | [s [p [e [-> Hv]]]]].
  - destruct s; reflexivity.
  - now apply PyFloatRounding.mul_hundred_rounded.
Qed.

Lemma metrics_percent_rounded_witness :
  exists w1,
    get_redis_cache_metrics seven_percent_world = (Ok (Some seven_percent_snapshot), w1) /\
    PyFloat.rounded_hundredfold (S754_finite false 5044031582654956 (-56))
                                (S754_finite false 7881299347898369 (-50)).
Proof.
  assert (H : get_redis_cache_metrics seven_percent_world =
              (Ok (Some seven_percent_snapshot),
               snd (get_redis_cache_metrics seven_percent_world)))
    by (vm_compute; reflexivity).
  exists (snd (get_redis_cache_metrics seven_percent_world)).
  split; [exact H | exact (proj2 (proj2 (metrics_percent_rounded _ _ _ H)))].
Defined.

(** C10 as stated does not hold: with 7 hits and 93 misses the snapshot has
    hit_ratio = 5044031582654956 * 2^-56 and
    hit_ratio_percent = 7881299347898369 * 2^-50, which is not 100 times
    hit_ratio: scaled by 2^56, 504403158265495616 against
    504403158265495600. *)
Lemma metrics_percent_not_exact :
  exists w1,
    get_redis_cache_metrics seven_percent_world = (Ok (Some seven_percent_snapshot), w1) /\
    hit_ratio seven_percent_snapshot = S754_finite false 5044031582654956 (-56) /\
    hit_ratio_percent seven_percent_snapshot = S754_finite false 7881299347898369 (-50) /\
    ~ PyFloat.exact_hundredfold (hit_ratio seven_percent_snapshot)
                                (hit_ratio_percent seven_percent_snapshot).
Proof.
  exists (snd (get_redis_cache_metrics seven_percent_world)).
  split; [vm_compute; reflexivity |].
  split; [reflexivity |]. split; [reflexivity |].
  intros [_ H]. vm_compute in H. discriminate H.
Qed.

(** ** The metrics endpoint *)

(** The endpoint answers from what the reporter returned. *)
Lemma cache_metrics_Some (request : HttpRequest) (w w1 : world) (m : metrics) :
  get_redis_cache_metrics w = (Ok (Some m), w1) ->
  exists response,
    cache_metrics request w = (Ok response, w1) /\
    status_code response = 200 /\
    report_tier response = Some (JStr (performance (hit_ratio m))) /\
    report_recommendation response = Some (JStr (recommendation (hit_ratio m))).
Proof.
  intros H. unfold cache_metrics. cbv [mbind M_bind]. rewrite H.
  eexists. split; [reflexivity |]. repeat split.
Qed.

Lemma cache_metrics_None (request : HttpRequest) (w w1 : world) :
  get_redis_cache_metrics w = (Ok None, w1) ->
  cache_metrics request w =
    (Ok {| status_code := 500;
           content := JObj [("error", JStr "Could not retrieve cache metrics");
                            ("status", JStr "error")] |}, w1).
Proof.
  intros H. unfold cache_metrics. cbv [mbind M_bind]. rewrite H. reflexivity.
Qed.

Lemma ltb_negb_geb (h t : PyFloat.float) :
  h <> S754_nan -> t <> S754_nan ->
  PyFloat.ltb h t = negb (PyFloat.geb h t).
Proof.
  intros Hh Ht. destruct (PyFloat.geb h t) eqn:Hg; simpl.
  - destruct (PyFloat.ltb h t) eqn:Hl; [| reflexivity].
    apply PyFloatFacts.ltb_geb_false in Hl. congruence.
  - now apply PyFloatFacts.geb_false_ltb.
Qed.

(** The tiers and the recommendation as functions of the ratio. *)
Lemma tiers_by_threshold (h : PyFloat.float) :
  h <> S754_nan ->
  (performance h = "excellent" <-> PyFloat.geb h PyFloat.lit_0_9 = true) /\
  (performance h = "good" <->
     PyFloat.geb h PyFloat.lit_0_7 = true /\ PyFloat.ltb h PyFloat.lit_0_9 = true) /\
  (performance h = "average" <->
     PyFloat.geb h PyFloat.lit_0_5 = true /\ PyFloat.ltb h PyFloat.lit_0_7 = true) /\
  (performance h = "poor" <-> PyFloat.ltb h PyFloat.lit_0_5 = true) /\
  (recommendation h = "Cache is working well!" <->
     PyFloat.geb h PyFloat.lit_0_7 = true) /\
  (recommendation h = "Consider optimizing cache strategy" <->
     PyFloat.ltb h PyFloat.lit_0_7 = true).
Proof.
  intros Hh.
  rewrite !ltb_negb_geb by (discriminate || assumption).
  pose proof (PyFloatFacts.geb_threshold_mono h 6305039478318694 8106479329266893
                ltac:(lia)) as H97.
  pose proof (PyFloatFacts.geb_threshold_mono h 4503599627370496 6305039478318694
                ltac:(lia)) as H75.
  fold PyFloat.lit_0_9 PyFloat.lit_0_7 PyFloat.lit_0_5 in H97, H75.
  unfold performance, recommendation.
  destruct (PyFloat.geb h PyFloat.lit_0_9) eqn:G9;
    destruct (PyFloat.geb h PyFloat.lit_0_7) eqn:G7;
    destruct (PyFloat.geb h PyFloat.lit_0_5) eqn:G5;
    try (specialize (H97 eq_refl); discriminate);
    try (specialize (H75 eq_refl); discriminate);
    simpl; repeat split; intros; try discriminate; try reflexivity;
    try (match goal with H : _ /\ _ |- _ => destruct H end; discriminate).
Qed.

(** C7: for every ratio between 0 and 1, the report's tier is 'excellent'
    exactly from 0.90, 'good' exactly from 0.70 to below 0.90, 'average'
    exactly from 0.50 to below 0.70 and 'poor' below 0.50; the recommendation
    is the positive one exactly from 0.70 and the suggestion to optimize
    below; these are the two entries that the endpoint's report carries for a
    snapshot with that ratio. *)
Theorem report_classification (h : PyFloat.float) :
  PyFloat.leb PyFloat.zero h = true ->
  PyFloat.leb h PyFloat.one = true ->
  (performance h = "excellent" <-> PyFloat.geb h PyFloat.lit_0_9 = true) /\
  (performance h = "good" <->
     PyFloat.geb h PyFloat.lit_0_7 = true /\ PyFloat.ltb h PyFloat.lit_0_9 = true) /\
  (performance h = "average" <->
     PyFloat.geb h PyFloat.lit_0_5 = true /\ PyFloat.ltb h PyFloat.lit_0_7 = true) /\
  (performance h = "poor" <-> PyFloat.ltb h PyFloat.lit_0_5 = true) /\
  (recommendation h = "Cache is working well!" <->
     PyFloat.geb h PyFloat.lit_0_7 = true) /\
  (recommendation h = "Consider optimizing cache strategy" <->
     PyFloat.ltb h PyFloat.lit_0_7 = true) /\
  (forall request w w1 m,
     get_redis_cache_metrics w = (Ok (Some m), w1) ->
     hit_ratio m = h ->
     exists response,
       cache_metrics request w = (Ok response, w1) /\
       report_tier response = Some (JStr (performance h)) /\
       report_recommendation response = Some (JStr (recommendation h))).
Proof.
  intros Hlo _.
  pose proof (tiers_by_threshold h (proj2 (PyFloatFacts.leb_not_nan _ _ Hlo)))
    as [H1 [H2 [H3 [H4 [H5 H6]]]]].
  repeat (split; [assumption |]).
  intros request w w1 m Hrun <-.
  destruct (cache_metrics_Some request w w1 m Hrun) as [response [Hv [_ [Ht Hr]]]].
  exists response. repeat split; assumption.
Qed.

Lemma report_classification_witness :
  PyFloat.leb PyFloat.zero PyFloat.lit_0_9 = true /\
  PyFloat.leb PyFloat.lit_0_9 PyFloat.one = true /\
  performance PyFloat.lit_0_9 = "excellent" /\
  exists response w1,
    cache_metrics {| GET := ∅ |} cold_world = (Ok response, w1) /\
    report_tier response = Some (JStr "excellent").
Proof.
  assert (Hlo : PyFloat.leb PyFloat.zero PyFloat.lit_0_9 = true) by reflexivity.
  assert (Hhi : PyFloat.leb PyFloat.lit_0_9 PyFloat.one = true) by reflexivity.
  assert (Hrun : get_redis_cache_metrics cold_world =
                 (Ok (Some cold_snapshot), snd (get_redis_cache_metrics cold_world)))
    by (vm_compute; reflexivity).
  destruct (report_classification PyFloat.lit_0_9 Hlo Hhi)
    as [Hex [_ [_ [_ [_ [_ Hview]]]]]].
  assert (Htier : performance PyFloat.lit_0_9 = "excellent")
    by (apply Hex; reflexivity).
  split; [exact Hlo |]. split; [exact Hhi |]. split; [exact Htier |].
  destruct (Hview {| GET := ∅ |} _ _ _ Hrun eq_refl) as [response [Hv [Ht _]]].
  exists response, (snd (get_redis_cache_metrics cold_world)).
  split; [exact Hv |]. rewrite Ht, Htier. reflexivity.
Defined.

(** C8: when the cache backend cannot be reached, whatever the exception,
    [get_redis_cache_metrics] returns None instead of raising, and the
    endpoint answers with the error payload and status 500. *)
Theorem metrics_failure_payload (request : HttpRequest) (w : world) :
  is_Some (conn_fault w) \/ is_Some (info_fault w) ->
  exists w1,
    get_redis_cache_metrics w = (Ok None, w1) /\
    cache_metrics request w =
      (Ok {| status_code := 500;
             content := JObj [("error", JStr "Could not retrieve cache metrics");
                              ("status", JStr "error")] |}, w1).
Proof.
  intros H. destruct (get_redis_cache_metrics_fault w H) as [w1 Hrun].
  exists w1. split; [exact Hrun | now apply cache_metrics_None].
Qed.

Lemma metrics_failure_payload_witness :
  (is_Some (conn_fault broken_redis_world) \/ is_Some (info_fault broken_redis_world)) /\
  exists w1 response,
    get_redis_cache_metrics broken_redis_world = (Ok None, w1) /\
    cache_metrics {| GET := ∅ |} broken_redis_world = (Ok response, w1) /\
    status_code response = 500.
Proof.
  assert (H : is_Some (conn_fault broken_redis_world) \/
              is_Some (info_fault broken_redis_world))
    by (right; exists refused; reflexivity).
  split; [exact H |].
  destruct (metrics_failure_payload {| GET := ∅ |} broken_redis_world H)
    as [w1 [H1 H2]].
  exists w1. eexists. split; [exact H1 |]. split; [exact H2 | reflexivity].
Defined.

(** ** Checks of the float model against known binary64 values *)

Example truediv_9_10 : PyFloat.truediv 9 10 = Ok PyFloat.lit_0_9.
Proof. vm_compute. reflexivity. Qed.

Example truediv_1_3 :
  PyFloat.truediv 1 3 = Ok (S754_finite false 6004799503160661 (-54)).
Proof. vm_compute. reflexivity. Qed.

Example truediv_beyond_53_bits :
  PyFloat.truediv 899999999999999999 1000000000000000000 = Ok PyFloat.lit_0_9.
Proof. vm_compute. reflexivity. Qed.

Example truediv_signed_zero : PyFloat.truediv 0 (-3) = Ok (S754_zero true).
Proof. vm_compute. reflexivity. Qed.

Example of_int_100 : PyFloat.of_int 100 = Ok PyFloat.lit_100.
Proof. vm_compute. reflexivity. Qed.

Example format_f_0_9 : PyFloat.format_f 4 PyFloat.lit_0_9 = "0.9000"%string.
Proof. vm_compute. reflexivity. Qed.

Example format_pct_0_9 : PyFloat.format_pct 2 PyFloat.lit_0_9 = "90.00%"%string.
Proof. vm_compute. reflexivity. Qed.

(** The boundary scenarios of the tiers. *)
Example tier_at_0_9 : performance PyFloat.lit_0_9 = "excellent"%string.
Proof. vm_compute. reflexivity. Qed.

Example tier_at_0_7 : performance PyFloat.lit_0_7 = "good"%string.
Proof. vm_compute. reflexivity. Qed.

Example tier_at_0_5 : performance PyFloat.lit_0_5 = "average"%string.
Proof. vm_compute. reflexivity. Qed.

Example tier_at_zero : performance PyFloat.zero = "poor"%string.
Proof. vm_compute. reflexivity. Qed.

(** The scenarios of the spec: ratios at and just below the thresholds. *)
Example tier_9000 : tier_of_counters 9000 1000 = Some "excellent"%string.
Proof. vm_compute. reflexivity. Qed.

Example tier_8999 : tier_of_counters 8999 1001 = Some "good"%string.
Proof. vm_compute. reflexivity. Qed.

Example tier_7000 : tier_of_counters 7000 3000 = Some "good"%string.
Proof. vm_compute. reflexivity. Qed.

Example tier_6999 : tier_of_counters 6999 3001 = Some "average"%string.
Proof. vm_compute. reflexivity. Qed.

Example tier_5000 : tier_of_counters 5000 5000 = Some "average"%string.
Proof. vm_compute. reflexivity. Qed.

Example tier_4999 : tier_of_counters 4999 5001 = Some "poor"%string.
Proof. vm_compute. reflexivity. Qed.

Example tier_no_requests : tier_of_counters 0 0 = Some "poor"%string.
Proof. vm_compute. reflexivity. Qed.

(** * Further properties *)

(** ** The accessor beyond the hit and the miss *)

Lemma db_queries_app (t1 t2 : list event) :
  db_queries (t1 ++ t2) = (db_queries t1 + db_queries t2)%nat.
Proof. unfold db_queries. now rewrite List.filter_app, length_app. Qed.

(** X1: with the cache backend unreachable the accessor raises the failure of
    the cache read; it does not fall back on the backing store, which is not
    queried, and nothing but the trace changes. *)
Theorem get_all_properties_cache_unreachable (w : world) (e : exn) :
  cache_fault w = Some e ->
  exists w',
    get_all_properties w = (Raise e, w') /\
    since w w' = [CacheGet "all_properties"] /\
    db_queries (since w w') = 0%nat /\
    cache_store w' = cache_store w /\
    table w' = table w.
Proof.
  intros Hc. unfold get_all_properties. run_M. rewrite Hc.
  eexists. split; [reflexivity |].
  match goal with |- since ?a ?b = ?d /\ _ =>
    assert (Hs : since a b = d) by (apply since_app; trace_eq) end.
  rewrite Hs. repeat split; reflexivity.
Qed.

Lemma get_all_properties_cache_unreachable_witness :
  cache_fault cache_down_world = Some refused /\
  exists w', get_all_properties cache_down_world = (Raise refused, w') /\
             db_queries (since cache_down_world w') = 0%nat.
Proof.
  split; [reflexivity |].
  destruct (get_all_properties_cache_unreachable cache_down_world refused eq_refl)
    as [w' [H [_ [Hq _]]]].
  exists w'. split; [exact H | exact Hq].
Defined.

(** The four ways in which a call of the accessor can go. *)
Lemma get_all_properties_cases (w : world) :
  (exists e, cache_fault w = Some e /\
     get_all_properties w = (Raise e, emit (CacheGet "all_properties") w)) \/
  (exists v, cache_fault w = None /\ cache_lookup "all_properties" w = v /\
     v <> PyNone /\
     get_all_properties w =
       (Ok v, emit (Stdout "Cache HIT: Using cached properties (fast!)")
                (emit (CacheGet "all_properties") w))) \/
  (exists e, cache_fault w = None /\ cache_lookup "all_properties" w = PyNone /\
     db_fault w = Some e /\
     get_all_properties w =
       (Raise e,
        emit DbSelectAll
          (emit (Stdout "Cache MISS: Fetching properties from database...")
             (emit (CacheGet "all_properties") w)))) \/
  (cache_fault w = None /\ cache_lookup "all_properties" w = PyNone /\
     db_fault w = None /\
     get_all_properties w =
       (Ok (PyList (table w)),
        emit (Stdout ("Cached " +:+ pretty (length (table w)) +:+ " properties for 1 hour"))
          (with_cache_store
             (<["all_properties" :=
                  {| ce_value := PyList (table w); ce_expires := now w + 3600 |}]>
                (cache_store w))
             (emit (CacheSet "all_properties" (PyList (table w)) 3600)
                (emit DbSelectAll
                   (emit (Stdout "Cache MISS: Fetching properties from database...")
                      (emit (CacheGet "all_properties") w))))))).
Proof.
  destruct (cache_fault w) as [e|] eqn:Hc.
  - left. exists e. split; [reflexivity |].
    unfold get_all_properties. run_M. now rewrite Hc.
  - right. destruct (cache_lookup "all_properties" w) as [| n | s | l] eqn:Hv.
    + right. destruct (db_fault w) as [e|] eqn:Hdb.
      * left. exists e. repeat split.
        unfold get_all_properties. run_M.
        rewrite Hc. rewrite cache_lookup_emit, Hv. simpl. now rewrite Hdb.
      * right. repeat split. now apply get_all_properties_miss.
    + left. exists (PyInt n). repeat split; [discriminate |].
      apply get_all_properties_hit; [assumption .. | discriminate].
    + left. exists (PyStr s). repeat split; [discriminate |].
      apply get_all_properties_hit; [assumption .. | discriminate].
    + left. exists (PyList l). repeat split; [discriminate |].
      apply get_all_properties_hit; [assumption .. | discriminate].
Qed.

(** X2: whatever the world, a call of the accessor never changes the table
    or the clock, never touches a cache entry other than 'all_properties',
    performs only operations of the read path (no delete, no write to the
    table), and sends at most one query and at most one cache write. *)
Theorem get_all_properties_frame (w : world) :
  table (snd (get_all_properties w)) = table w /\
  now (snd (get_all_properties w)) = now w /\
  (forall k, k <> "all_properties" ->
     cache_store (snd (get_all_properties w)) !! k = cache_store w !! k) /\
  forallb read_path_event (since w (snd (get_all_properties w))) = true /\
  (db_queries (since w (snd (get_all_properties w))) <= 1)%nat /\
  (cache_writes (since w (snd (get_all_properties w))) <= 1)%nat.
Proof.
  destruct (get_all_properties_cases w)
    as [[e [_ ->]] | [[v [_ [_ [_ ->]]]] | [[e [_ [_ [_ ->]]]] | [_ [_ [_ ->]]]]]];
    simpl snd;
    (split; [reflexivity |]); (split; [reflexivity |]);
    (split; [intros k Hk; simpl; rewrite ?lookup_insert_ne by congruence; reflexivity |]);
    erewrite since_app by trace_eq; unfold db_queries, cache_writes; simpl;
    repeat split; lia.
Qed.

(** ** Several reads in a row *)

Lemma read_each_hits (v : pyobj) (ce : cache_entry) (waits : list Z) :
  v <> PyNone ->
  ce_value ce = v ->
  forall w,
    cache_fault w = None ->
    cache_store w !! "all_properties" = Some ce ->
    Forall (fun dt => 0 <= dt) waits ->
    now w + total_wait waits < ce_expires ce ->
    exists w' d,
      read_each waits w = (Ok (replicate (length waits) v), w') /\
      trace w' = trace w ++ d /\
      db_queries d = 0%nat /\
      cache_store w' = cache_store w /\
      table w' = table w.
Proof.
  intros Hne Hv. induction waits as [| dt rest IH]; intros w Hc Hce Hpos Hlive.
  - exists w, []. simpl. rewrite app_nil_r. repeat split.
  - inversion Hpos as [| ? ? Hdt Hrest]; subst.
    simpl total_wait in Hlive.
    assert (Htw : 0 <= total_wait rest).
    { clear -Hrest. induction Hrest; simpl; lia. }
    assert (Hlook : cache_lookup "all_properties" (tick dt w) = ce_value ce).
    { unfold cache_lookup. simpl. rewrite Hce.
      destruct (Z.ltb_spec (now w + dt) (ce_expires ce)); [reflexivity | lia]. }
    pose proof (get_all_properties_hit (tick dt w) (ce_value ce) Hc Hlook Hne) as Hrun.
    match type of Hrun with _ = (_, ?x) => set (w1 := x) in * end.
    destruct (IH w1 Hc Hce Hrest) as [w' [d [Hrest_run [Htr [Hq [Hst Htb]]]]]].
    { simpl. lia. }
    exists w', ([CacheGet "all_properties";
                 Stdout "Cache HIT: Using cached properties (fast!)"] ++ d).
    split.
    { simpl read_each. cbv [mbind M_bind mret M_ret]. rewrite Hrun, Hrest_run.
      reflexivity. }
    split; [rewrite Htr; simpl; rewrite <- !app_assoc; reflexivity |].
    split; [rewrite db_queries_app, Hq; reflexivity |].
    split; [rewrite Hst; reflexivity | rewrite Htb; reflexivity].
Qed.

(** X3: while the cached entry lives, any number of reads, spread over time,
    all return the cached value, send no query to the backing store and leave
    the cache and the table as they are. *)
Theorem repeated_reads_are_hits (w : world) (ce : cache_entry) (waits : list Z) :
  cache_fault w = None ->
  cache_store w !! "all_properties" = Some ce ->
  ce_value ce <> PyNone ->
  Forall (fun dt => 0 <= dt) waits ->
  now w + total_wait waits < ce_expires ce ->
  exists w',
    read_each waits w = (Ok (replicate (length waits) (ce_value ce)), w') /\
    db_queries (since w w') = 0%nat /\
    cache_store w' = cache_store w /\
    table w' = table w.
Proof.
  intros Hc Hce Hne Hpos Hlive.
  destruct (read_each_hits (ce_value ce) ce waits Hne eq_refl w Hc Hce Hpos Hlive)
    as [w' [d [Hrun [Htr [Hq [Hst Htb]]]]]].
  exists w'. rewrite (since_app _ _ _ Htr). auto.
Qed.

Lemma repeated_reads_are_hits_witness :
  exists w',
    read_each [0; 1000; 1500] warm_world =
      (Ok [PyList [villa]; PyList [villa]; PyList [villa]], w') /\
    db_queries (since warm_world w') = 0%nat.
Proof.
  assert (Hne : PyList [villa] <> PyNone) by discriminate.
  assert (Hpos : Forall (fun dt => 0 <= dt) [0; 1000; 1500])
    by (repeat constructor; lia).
  assert (Hlive : now warm_world + total_wait [0; 1000; 1500] < 4000)
    by (vm_compute; reflexivity).
  destruct (repeated_reads_are_hits warm_world
              {| ce_value := PyList [villa]; ce_expires := 4000 |}
              [0; 1000; 1500] eq_refl eq_refl Hne Hpos Hlive)
    as [w' [Hrun [Hq _]]].
  exists w'. split; [exact Hrun | exact Hq].
Defined.

(** X4: an entry that the accessor stored is served for 3600 seconds and not
    a second longer: if the table changes behind the cache (a write that sends
    no signal), a read before the expiry still returns the old rows, and a
    read from the expiry on returns the new ones. *)
Theorem stale_until_expiry (w : world) (rows' : list Property) (dt : Z) :
  fst (cache_get "all_properties" w) = Ok PyNone ->
  db_fault w = None ->
  0 <= dt ->
  (dt < 3600 ->
   fst (get_all_properties
          (tick dt (with_table rows' (snd (get_all_properties w)))))
     = Ok (PyList (table w))) /\
  (3600 <= dt ->
   fst (get_all_properties
          (tick dt (with_table rows' (snd (get_all_properties w)))))
     = Ok (PyList rows')).
Proof.
  intros Hget Hdb Hdt. apply cache_get_Ok in Hget as [Hc Hmiss].
  rewrite (get_all_properties_miss w Hc Hmiss Hdb). simpl snd.
  match goal with |- context [tick dt ?x] => set (w2 := tick dt x) end.
  assert (Hc2 : cache_fault w2 = None) by exact Hc.
  assert (Hdb2 : db_fault w2 = None) by exact Hdb.
  split; intros Hcmp.
  - assert (Hlook : cache_lookup "all_properties" w2 = PyList (table w)).
    { unfold cache_lookup. simpl. rewrite lookup_insert_eq. simpl.
      destruct (Z.ltb_spec (now w + dt) (now w + 3600)); [reflexivity | lia]. }
    rewrite (get_all_properties_hit w2 _ Hc2 Hlook); [reflexivity | discriminate].
  - assert (Hlook : cache_lookup "all_properties" w2 = PyNone).
    { unfold cache_lookup. simpl. rewrite lookup_insert_eq. simpl.
      destruct (Z.ltb_spec (now w + dt) (now w + 3600)); [lia | reflexivity]. }
    rewrite (get_all_properties_miss w2 Hc2 Hlook Hdb2). reflexivity.
Qed.

Lemma stale_until_expiry_witness :
  fst (get_all_properties
         (tick 3599 (with_table [studio] (snd (get_all_properties cold_world)))))
    = Ok (PyList [villa; studio]) /\
  fst (get_all_properties
         (tick 3600 (with_table [studio] (snd (get_all_properties cold_world)))))
    = Ok (PyList [studio]).
Proof.
  assert (H1 : 0 <= 3599) by lia. assert (H2 : 0 <= 3600) by lia.
  assert (H3 : 3599 < 3600) by lia. assert (H4 : 3600 <= 3600) by lia.
  split.
  - exact (proj1 (stale_until_expiry cold_world [studio] 3599 eq_refl eq_refl H1) H3).
  - exact (proj2 (stale_until_expiry cold_world [studio] 3600 eq_refl eq_refl H2) H4).
Defined.

(** ** Coherence along a run *)

Lemma coherent_lookup (w : world) :
  coherent w ->
  cache_lookup "all_properties" w = PyNone \/
  cache_lookup "all_properties" w = PyList (table w).
Proof.
  intros Hco. unfold cache_lookup.
  destruct (cache_store w !! "all_properties") as [ce|] eqn:Hce; [| now left].
  rewrite (Hco ce Hce). destruct (now w <? ce_expires ce); [now right | now left].
Qed.

Lemma coherent_read (w : world) :
  cache_fault w = None -> db_fault w = None -> coherent w ->
  exists w',
    get_all_properties w = (Ok (PyList (table w)), w') /\
    cache_fault w' = None /\ db_fault w' = None /\ coherent w' /\
    table w' = table w.
Proof.
  intros Hc Hdb Hco.
  destruct (coherent_lookup w Hco) as [Hv | Hv].
  - eexists. split; [now apply get_all_properties_miss |].
    repeat split; try assumption.
    intros ce. simpl. rewrite lookup_insert_eq. intros [= <-]. reflexivity.
  - eexists.
    split; [apply get_all_properties_hit; [assumption .. | discriminate] |].
    repeat split; assumption.
Qed.

Lemma coherent_mutation (mu : mutation) (w : world) :
  cache_fault w = None -> db_fault w = None ->
  cache_fault (snd (apply_mutation mu w)) = None /\
  db_fault (snd (apply_mutation mu w)) = None /\
  coherent (snd (apply_mutation mu w)).
Proof.
  intros Hc Hdb.
  destruct (apply_mutation_run mu w Hc Hdb) as [w1 [-> [_ [Hst [Hc1 Hdb1]]]]].
  simpl snd. repeat split; try assumption.
  intros ce. rewrite Hst, lookup_delete_eq. discriminate.
Qed.

(** X5: in a world where the cache and the database answer and the cached
    collection, if any, is the table, every read of a run of reads, saves,
    deletes and waits returns the table as it is at the time of that read:
    with all writes going through save and delete, no read is ever stale. *)
Theorem reads_are_never_stale (steps : list step) (w : world) :
  cache_fault w = None ->
  db_fault w = None ->
  coherent w ->
  Forall (fun answer => fst answer = Ok (PyList (snd answer)))
         (fst (run_steps steps w)).
Proof.
  revert w. induction steps as [| s rest IH]; intros w Hc Hdb Hco; simpl.
  - constructor.
  - destruct s as [| mu | dt].
    + destruct (coherent_read w Hc Hdb Hco) as [w1 [-> [Hc1 [Hdb1 [Hco1 _]]]]].
      specialize (IH w1 Hc1 Hdb1 Hco1).
      destruct (run_steps rest w1) as [answers w2]. simpl in *.
      constructor; [reflexivity | exact IH].
    + destruct (coherent_mutation mu w Hc Hdb) as [Hc1 [Hdb1 Hco1]].
      now apply IH.
    + apply IH; assumption.
Qed.

Lemma reads_are_never_stale_witness :
  fst (run_steps [Read; Mutate (Persist studio); Wait 10; Read;
                  Mutate (Remove villa); Read] warm_world)
    = [(Ok (PyList [villa]), [villa]);
       (Ok (PyList [villa; studio]), [villa; studio]);
       (Ok (PyList [studio]), [studio])] /\
  Forall (fun answer => fst answer = Ok (PyList (snd answer)))
         (fst (run_steps [Read; Mutate (Persist studio); Wait 10; Read;
                          Mutate (Remove villa); Read] warm_world)).
Proof.
  assert (Hco : coherent warm_world).
  { intros ce. unfold warm_world. simpl. rewrite lookup_insert_eq.
    intros [= <-]. reflexivity. }
  split; [vm_compute; reflexivity |].
  exact (reads_are_never_stale _ warm_world eq_refl eq_refl Hco).
Defined.

(** ** The handlers beyond the eviction *)

(** X6: a handler touches nothing but the key 'all_properties': every other
    cache entry, the table and the clock are as before, and when the key holds
    nothing the handler still completes and the cache store is unchanged. *)
Theorem handlers_touch_only_collection
    (w : world) (instance : Property) (created : bool) :
  cache_fault w = None ->
  exists w1 w2,
    invalidate_property_cache_on_save PropertyModel instance created w = (Ok tt, w1) /\
    invalidate_property_cache_on_delete PropertyModel instance w = (Ok tt, w2) /\
    (forall k, k <> "all_properties" ->
       cache_store w1 !! k = cache_store w !! k /\
       cache_store w2 !! k = cache_store w !! k) /\
    (cache_store w !! "all_properties" = None ->
       cache_store w1 = cache_store w /\ cache_store w2 = cache_store w) /\
    table w1 = table w /\ table w2 = table w /\
    now w1 = now w /\ now w2 = now w /\
    db_queries (since w w1) = 0%nat /\ db_queries (since w w2) = 0%nat.
Proof.
  intros Hc. eexists. eexists.
  split; [now apply invalidate_on_save_run |].
  split; [now apply invalidate_on_delete_run |].
  split.
  { intros k Hk. simpl. rewrite lookup_delete_ne by congruence. auto. }
  split.
  { intros Hnone. simpl. rewrite delete_id by exact Hnone. auto. }
  repeat (split; [reflexivity |]).
  split; erewrite since_app by trace_eq; reflexivity.
Qed.

Lemma handlers_touch_only_collection_witness :
  cache_fault shared_cache_world = None /\
  exists w1,
    invalidate_property_cache_on_save PropertyModel villa false shared_cache_world
      = (Ok tt, w1) /\
    cache_store w1 !! "views.decorators.cache.cache_page"
      = Some {| ce_value := PyStr "<html>"; ce_expires := 1900 |}.
Proof.
  split; [reflexivity |].
  destruct (handlers_touch_only_collection shared_cache_world villa false eq_refl)
    as [w1 [w2 [H1 [_ [Hk _]]]]].
  exists w1. split; [exact H1 |].
  rewrite (proj1 (Hk "views.decorators.cache.cache_page" ltac:(discriminate))).
  reflexivity.
Defined.

(** X7: a handler does not catch a failing delete of the cache key. With the
    cache unreachable, a save writes the row and then raises the failure of
    the cache to its caller, and a delete raises it as well, its removal being
    rolled back with the transaction; in both cases the handler prints nothing
    and the cached collection stays in the store as it was. *)
Theorem mutation_with_cache_down (w : world) (p : Property) (e : exn) :
  cache_fault w = Some e ->
  db_fault w = None ->
  (exists w',
     Model_save p w = (Raise e, w') /\
     table w' = upsert_row p (table w) /\
     cache_store w' = cache_store w /\
     since w w' = [DbWrite p; CacheDelete "all_properties"]) /\
  (exists w',
     Model_delete p w = (Raise e, w') /\
     table w' = table w /\
     cache_store w' = cache_store w /\
     since w w' = [DbRemove p; CacheDelete "all_properties"]).
Proof.
  intros Hc Hdb. split.
  - unfold Model_save, post_save_send, invalidate_property_cache_on_save. run_M.
    rewrite Hdb. simpl. rewrite Hc.
    eexists. split; [reflexivity |]. repeat split.
    apply since_app. trace_eq.
  - unfold Model_delete, transaction_atomic, post_delete_send,
      invalidate_property_cache_on_delete.
    run_M. rewrite Hdb. simpl. rewrite Hc.
    eexists. split; [reflexivity |]. repeat split.
    apply since_app. trace_eq.
Qed.

Lemma mutation_with_cache_down_witness :
  cache_fault cache_down_world = Some refused /\
  db_fault cache_down_world = None /\
  (exists w',
     Model_save studio cache_down_world = (Raise refused, w') /\
     table w' = [villa; studio]) /\
  (exists w',
     Model_delete villa cache_down_world = (Raise refused, w') /\
     table w' = [villa] /\
     cache_store w' !! "all_properties"
       = Some {| ce_value := PyList [villa]; ce_expires := 4000 |}).
Proof.
  split; [reflexivity |]. split; [reflexivity |].
  destruct (mutation_with_cache_down cache_down_world studio refused eq_refl eq_refl)
    as [[w1 [H1 [Ht1 _]]] _].
  destruct (mutation_with_cache_down cache_down_world villa refused eq_refl eq_refl)
    as [_ [w2 [H2 [Ht2 [Hs2 _]]]]].
  split.
  - exists w1. split; [exact H1 | exact Ht1].
  - exists w2. split; [exact H2 |]. split; [exact Ht2 |]. rewrite Hs2. reflexivity.
Defined.

(** ** The reporter and the endpoint beyond the claims *)

(** X8: the reporter never raises, and it answers None exactly when the
    connection fails, the INFO command fails, or the division raises. *)
Theorem reporter_none_iff (w : world) :
  (exists r w', get_redis_cache_metrics w = (Ok r, w')) /\
  (fst (get_redis_cache_metrics w) = Ok None <->
   is_Some (conn_fault w) \/ is_Some (info_fault w) \/
   exists e, ratio_of (stat w "keyspace_hits") (stat w "keyspace_misses") = Raise e).
Proof.
  split; [apply get_redis_cache_metrics_total |].
  unfold get_redis_cache_metrics, ratio_of, stat. run_M.
  destruct (conn_fault w) as [e|]; simpl.
  { split; [intros _; left; eauto | reflexivity]. }
  destruct (info_fault w) as [e|]; simpl.
  { split; [intros _; right; left; eauto | reflexivity]. }
  destruct (0 <? _); simpl.
  - destruct (PyFloat.truediv _ _) as [r | e]; simpl.
    + split; [discriminate |].
      intros [[? H] | [[? H] | [? H]]]; discriminate.
    + split; [intros _; right; right; eauto | reflexivity].
  - split; [discriminate |].
    intros [[? H] | [[? H] | [? H]]]; discriminate.
Qed.

(** X9: the reporter and the endpoint only read: the cache store, the table,
    the clock and the statistics of the server are as before, and neither the
    cache nor the backing store is asked anything. *)
Theorem metrics_are_read_only (request : HttpRequest) (w : world) :
  (let w' := snd (get_redis_cache_metrics w) in
   cache_store w' = cache_store w /\ table w' = table w /\
   now w' = now w /\ redis_stats w' = redis_stats w /\
   db_queries (since w w') = 0%nat /\ cache_keys (since w w') = []) /\
  (let w' := snd (cache_metrics request w) in
   cache_store w' = cache_store w /\ table w' = table w /\
   now w' = now w /\ redis_stats w' = redis_stats w /\
   db_queries (since w w') = 0%nat /\ cache_keys (since w w') = []).
Proof.
  assert (H : let w' := snd (get_redis_cache_metrics w) in
              cache_store w' = cache_store w /\ table w' = table w /\
              now w' = now w /\ redis_stats w' = redis_stats w /\
              db_queries (since w w') = 0%nat /\ cache_keys (since w w') = []).
  { unfold get_redis_cache_metrics. run_M.
    destruct (conn_fault w) as [e|]; simpl;
      [erewrite since_app by trace_eq; repeat split |].
    destruct (info_fault w) as [e|]; simpl;
      [erewrite since_app by trace_eq; repeat split |].
    destruct (0 <? _); simpl;
      [destruct (PyFloat.truediv _ _) as [r | e]; simpl |];
      erewrite since_app by trace_eq; repeat split. }
  split; [exact H |].
  unfold cache_metrics. cbv [mbind M_bind mret M_ret].
  destruct (get_redis_cache_metrics_total w) as [r [w1 Hrun]].
  rewrite Hrun in H |- *. destruct r; exact H.
Qed.

(** The answer of the endpoint for a snapshot, entry by entry. *)
Lemma cache_metrics_payload (request : HttpRequest) (w w1 : world) (m : metrics) :
  get_redis_cache_metrics w = (Ok (Some m), w1) ->
  exists response,
    cache_metrics request w = (Ok response, w1) /\
    status_code response = 200 /\
    json_path ["status"] (content response) = Some (JStr "success") /\
    json_path ["cache_metrics"; "hits"] (content response) = Some (JInt (hits m)) /\
    json_path ["cache_metrics"; "misses"] (content response) = Some (JInt (misses m)) /\
    json_path ["cache_metrics"; "total_requests"] (content response)
      = Some (JInt (total_requests m)) /\
    json_path ["cache_metrics"; "hit_ratio"] (content response)
      = Some (JStr (PyFloat.format_f 4 (hit_ratio m))) /\
    json_path ["cache_metrics"; "hit_ratio_percent"] (content response)
      = Some (JStr (PyFloat.format_f 2 (hit_ratio_percent m) +:+ "%")) /\
    report_tier response = Some (JStr (performance (hit_ratio m))) /\
    report_recommendation response = Some (JStr (recommendation (hit_ratio m))).
Proof.
  intros H. unfold cache_metrics. cbv [mbind M_bind]. rewrite H.
  eexists. split; [reflexivity |]. repeat split.
Qed.

(** X10: when the INFO reply has neither counter, both default to zero: the
    snapshot is all zeros with the ratio 0.0, and the endpoint reports the
    tier 'poor', the ratio "0.0000" and the percentage "0.00%". *)
Theorem metrics_without_counters (request : HttpRequest) (w : world) :
  conn_fault w = None -> info_fault w = None ->
  redis_stats w !! "keyspace_hits" = None ->
  redis_stats w !! "keyspace_misses" = None ->
  exists w1 response,
    get_redis_cache_metrics w =
      (Ok (Some {| hits := 0; misses := 0; total_requests := 0;
                   hit_ratio := PyFloat.zero;
                   hit_ratio_percent := PyFloat.zero |}), w1) /\
    cache_metrics request w = (Ok response, w1) /\
    status_code response = 200 /\
    report_tier response = Some (JStr "poor") /\
    report_recommendation response = Some (JStr "Consider optimizing cache strategy") /\
    json_path ["cache_metrics"; "hit_ratio"] (content response)
      = Some (JStr "0.0000") /\
    json_path ["cache_metrics"; "hit_ratio_percent"] (content response)
      = Some (JStr "0.00%").
Proof.
  intros Hc Hi Hh Hm.
  assert (Hsh : stat w "keyspace_hits" = 0) by (unfold stat, dict_get; now rewrite Hh).
  assert (Hsm : stat w "keyspace_misses" = 0) by (unfold stat, dict_get; now rewrite Hm).
  destruct (get_redis_cache_metrics_run w PyFloat.zero Hc Hi) as [w1 Hrun];
    [rewrite Hsh, Hsm; reflexivity |].
  rewrite Hsh, Hsm in Hrun.
  destruct (cache_metrics_payload request w w1 _ Hrun)
    as [response [Hv [Hst [_ [_ [_ [_ [Hr [Hp [Ht Hrec]]]]]]]]]].
  exists w1, response. split; [exact Hrun |]. split; [exact Hv |].
  split; [exact Hst |]. split; [exact Ht |]. split; [exact Hrec |].
  split; [rewrite Hr | rewrite Hp]; vm_compute; reflexivity.
Qed.

Lemma metrics_without_counters_witness :
  exists w1 response,
    cache_metrics plain_request empty_world = (Ok response, w1) /\
    report_tier response = Some (JStr "poor").
Proof.
  destruct (metrics_without_counters plain_request empty_world
              eq_refl eq_refl eq_refl eq_refl)
    as [w1 [response [_ [Hv [_ [Ht _]]]]]].
  exists w1, response. split; [exact Hv | exact Ht].
Defined.

(** A number divided by itself is exactly one. *)
Lemma truediv_self (a : Z) : 0 < a -> PyFloat.truediv a a = Ok PyFloat.one.
Proof.
  intros Ha. unfold PyFloat.truediv.
  destruct (Z.eqb_spec a 0) as [| _]; [lia |].
  destruct (Z.ltb_spec a 0); [lia |].
  rewrite !Z.abs_eq by lia. simpl xorb.
  unfold SFdiv_core_binary.
  replace (Zdigits2 a + 0 - (Zdigits2 a + 0)) with 0 by lia.
  change (Z.min (fexp PyFloat.prec PyFloat.emax 0) (0 - 0)) with (-53).
  change (0 - 0 - -53) with 53.
  rewrite Z.shiftl_mul_pow2 by lia.
  pose proof (Z.div_eucl_eq (a * 2 ^ 53) a ltac:(lia)) as Heucl.
  pose proof (Z.mod_pos_bound (a * 2 ^ 53) a ltac:(lia)) as Hmod.
  unfold Z.modulo in Hmod.
  destruct (Z.div_eucl (a * 2 ^ 53) a) as [q r].
  assert (Hq : q = 2 ^ 53).
  { destruct (Z.lt_trichotomy q (2 ^ 53)) as [Hlt | [Heq | Hgt]]; [| exact Heq |].
    - assert (a * (q + 1) <= a * 2 ^ 53) by (apply Z.mul_le_mono_nonneg_l; lia).
      lia.
    - assert (a * 2 ^ 53 <= a * (q - 1)) by (apply Z.mul_le_mono_nonneg_l; lia).
      lia. }
  assert (Hr : r = 0) by (subst q; lia). subst q r.
  assert (Hloc : new_location a 0 = loc_Exact)
    by (unfold new_location; destruct (Z.even a); reflexivity).
  rewrite Hloc. reflexivity.
Qed.

(** X11: the two ends of the scale are exact. With hits only the ratio is
    exactly 1.0 and the percentage exactly 100.0, reported as 'excellent',
    "1.0000" and "100.00%"; with misses only the ratio and the percentage are
    exactly 0.0, reported as 'poor', "0.0000" and "0.00%". *)
Theorem metrics_extremes (request : HttpRequest) (w : world) (n : Z) :
  conn_fault w = None -> info_fault w = None ->
  0 < n ->
  (stat w "keyspace_hits" = n -> stat w "keyspace_misses" = 0 ->
   exists w1 response,
     get_redis_cache_metrics w =
       (Ok (Some {| hits := n; misses := 0; total_requests := n;
                    hit_ratio := PyFloat.one;
                    hit_ratio_percent := PyFloat.lit_100 |}), w1) /\
     cache_metrics request w = (Ok response, w1) /\
     report_tier response = Some (JStr "excellent") /\
     json_path ["cache_metrics"; "hit_ratio"] (content response)
       = Some (JStr "1.0000") /\
     json_path ["cache_metrics"; "hit_ratio_percent"] (content response)
       = Some (JStr "100.00%")) /\
  (stat w "keyspace_hits" = 0 -> stat w "keyspace_misses" = n ->
   exists w1 response,
     get_redis_cache_metrics w =
       (Ok (Some {| hits := 0; misses := n; total_requests := n;
                    hit_ratio := PyFloat.zero;
                    hit_ratio_percent := PyFloat.zero |}), w1) /\
     cache_metrics request w = (Ok response, w1) /\
     report_tier response = Some (JStr "poor") /\
     json_path ["cache_metrics"; "hit_ratio"] (content response)
       = Some (JStr "0.0000") /\
     json_path ["cache_metrics"; "hit_ratio_percent"] (content response)
       = Some (JStr "0.00%")).
Proof.
  intros Hc Hi Hn. split; intros Hh Hm.
  - destruct (get_redis_cache_metrics_run w PyFloat.one Hc Hi) as [w1 Hrun].
    { rewrite Hh, Hm. unfold ratio_of. rewrite Z.add_0_r.
      destruct (Z.ltb_spec 0 n); [now apply truediv_self | lia]. }
    rewrite Hh, Hm, Z.add_0_r in Hrun.
    change (PyFloat.mul PyFloat.one PyFloat.lit_100) with PyFloat.lit_100 in Hrun.
    destruct (cache_metrics_payload request w w1 _ Hrun)
      as [response [Hv [_ [_ [_ [_ [_ [Hr [Hp [Ht _]]]]]]]]]].
    exists w1, response. split; [exact Hrun |]. split; [exact Hv |].
    split; [exact Ht |].
    split; [rewrite Hr | rewrite Hp]; vm_compute; reflexivity.
  - destruct (get_redis_cache_metrics_run w PyFloat.zero Hc Hi) as [w1 Hrun].
    { rewrite Hh, Hm. unfold ratio_of. rewrite Z.add_0_l.
      destruct (Z.ltb_spec 0 n); [| lia].
      unfold PyFloat.truediv.
      destruct (Z.eqb_spec n 0); [lia |]. simpl.
      destruct (Z.ltb_spec n 0); [lia | reflexivity]. }
    rewrite Hh, Hm, Z.add_0_l in Hrun.
    change (PyFloat.mul PyFloat.zero PyFloat.lit_100) with PyFloat.zero in Hrun.
    destruct (cache_metrics_payload request w w1 _ Hrun)
      as [response [Hv [_ [_ [_ [_ [_ [Hr [Hp [Ht _]]]]]]]]]].
    exists w1, response. split; [exact Hrun |]. split; [exact Hv |].
    split; [exact Ht |].
    split; [rewrite Hr | rewrite Hp]; vm_compute; reflexivity.
Qed.

Lemma metrics_extremes_witness :
  exists w1 response,
    cache_metrics plain_request shared_cache_world = (Ok response, w1) /\
    json_path ["cache_metrics"; "hit_ratio_percent"] (content response)
      = Some (JStr "100.00%").
Proof.
  assert (Hn : 0 < 40) by lia.
  destruct (proj1 (metrics_extremes plain_request shared_cache_world 40
                     eq_refl eq_refl Hn) eq_refl eq_refl)
    as [w1 [response [_ [Hv [_ [_ Hp]]]]]].
  exists w1, response. split; [exact Hv | exact Hp].
Defined.

(** ** The tiers against the exact ratio *)

(** A valid float has a mantissa of at most 53 digits, and of exactly 53 above
    the least exponent. *)
Lemma valid_mantissa_bounds (m : positive) (e : Z) :
  valid_binary PyFloat.prec PyFloat.emax (S754_finite false m e) = true ->
  Z.pos m < 2 ^ 53 /\ (-1074 < e -> 2 ^ 52 <= Z.pos m) /\ -1074 <= e.
Proof.
  unfold valid_binary, bounded, canonical_mantissa.
  intros H. apply andb_true_iff in H as [H _]. apply Z.eqb_eq in H.
  rewrite PyFloatFacts.fexp_eq in H.
  destruct (PyFloatFacts.digits2_pos_bounds m) as [Hlo Hhi].
  set (d := Z.pos (digits2_pos m)) in *.
  assert (Hd : 0 < d) by (unfold d; lia).
  split; [| split; [| lia]].
  - apply Z.lt_le_trans with (2 ^ d); [exact Hhi |].
    apply Z.pow_le_mono_r; lia.
  - intros He. apply Z.le_trans with (2 ^ (d - 1)); [| exact Hlo].
    apply Z.pow_le_mono_r; lia.
Qed.

(** The float of a quotient [a / b] of the unit interval against a threshold
    [c / 10] of the upper half of that interval, whose binary64 value has the
    mantissa [mc] at exponent -53: a quotient at or above [c / 10] always
    gives a float at or above the threshold; for a divisor below [2^49] the
    converse holds too. *)
Lemma geb_threshold_exact (c : Z) (mc : positive) (a b : Z) (f : PyFloat.float) :
  5 <= c <= 9 ->
  c * 2 ^ 54 - 8 <= 20 * Z.pos mc <= c * 2 ^ 54 + 9 ->
  0 <= a <= b -> 0 < b ->
  PyFloat.leb f PyFloat.one = true ->
  PyFloat.nearest_of_quotient a b f ->
  (c * b <= 10 * a -> PyFloat.geb f (S754_finite false mc (-53)) = true) /\
  (b < 2 ^ 49 -> PyFloat.geb f (S754_finite false mc (-53)) = true ->
   c * b <= 10 * a).
Proof.
  intros Hc Hmc Ha Hb Hone [Hvalid Hnear].
  assert (HX : 5 * b <= c * b <= 9 * b)
    by (split; apply Z.mul_le_mono_nonneg_r; lia).
  assert (HY1 : 20 * (Z.pos mc * b) <= 2 ^ 54 * (c * b) + 9 * b).
  { replace (20 * (Z.pos mc * b)) with (20 * Z.pos mc * b) by lia.
    replace (2 ^ 54 * (c * b) + 9 * b) with ((c * 2 ^ 54 + 9) * b) by lia.
    apply Z.mul_le_mono_nonneg_r; lia. }
  assert (HY2 : 2 ^ 54 * (c * b) - 8 * b <= 20 * (Z.pos mc * b)).
  { replace (20 * (Z.pos mc * b)) with (20 * Z.pos mc * b) by lia.
    replace (2 ^ 54 * (c * b) - 8 * b) with ((c * 2 ^ 54 - 8) * b) by lia.
    apply Z.mul_le_mono_nonneg_r; lia. }
  set (X := c * b) in *. set (Y := Z.pos mc * b) in *.
  change (2 ^ 54) with 18014398509481984 in *.
  change (2 ^ 49) with 562949953421312.
  destruct f as [s | s | | s m e]; try (destruct s); try contradiction.
  - (* the float is zero: the quotient is tiny *)
    destruct Hnear as [_ Hnear].
    change (2 ^ (- -1074)) with (2 * 2 ^ 1073) in Hnear.
    assert (HP : 0 < 2 ^ 1073) by (apply Z.pow_pos_nonneg; lia).
    assert (HaP : a <= a * 2 ^ 1073).
    { replace a with (a * 1) at 1 by lia. apply Z.mul_le_mono_nonneg_l; lia. }
    split; [| intros _; discriminate].
    intros Hge. exfalso.
    replace (2 * (0 * b) - 2 * (a * (2 * 2 ^ 1073))) with (- (4 * (a * 2 ^ 1073)))
      in Hnear by lia.
    lia.
  - (* a finite positive float *)
    destruct (valid_mantissa_bounds m e Hvalid) as [Hm53 [Hm52 Hemin]].
    destruct Hnear as [He0 Hnear].
    unfold PyFloat.leb, SFleb, PyFloat.one, SFcompare in Hone.
    unfold PyFloat.geb, SFleb, SFcompare.
    change (2 ^ 53) with 9007199254740992 in *.
    change (2 ^ 52) with 4503599627370496 in *.
    assert (HW : 0 <= Z.pos m * b) by (apply Z.mul_nonneg_nonneg; lia).
    destruct (Z.compare_spec (-53) e) as [He | He | He].
    + (* exponent -53: the mantissas decide *)
      subst e. change (2 ^ (- -53)) with 9007199254740992 in Hnear.
      rewrite Pos.compare_cont_spec. simpl Pos.switch_Eq.
      destruct (Pos.compare_spec mc m) as [Heq | Hlt | Hgt];
        [| apply Pos2Z.pos_lt_pos in Hlt | apply Pos2Z.pos_lt_pos in Hgt].
      * subst m. fold Y in Hnear. split; [reflexivity |].
        intros Hb49 _. lia.
      * assert (HWY : Y + b <= Z.pos m * b).
        { unfold Y. replace (Z.pos mc * b + b) with ((Z.pos mc + 1) * b) by lia.
          apply Z.mul_le_mono_nonneg_r; lia. }
        split; [reflexivity |]. intros Hb49 _. lia.
      * assert (HWY : Z.pos m * b + b <= Y).
        { unfold Y. replace (Z.pos m * b + b) with ((Z.pos m + 1) * b) by lia.
          apply Z.mul_le_mono_nonneg_r; lia. }
        split; [| intros _; discriminate].
        intros Hge. exfalso. lia.
    + (* exponent above -53: the float is one *)
      split; [reflexivity |]. intros _ _.
      destruct (Z.compare_spec e (-52)) as [He2 | He2 | He2];
        [| lia | discriminate].
      subst e. rewrite Pos.compare_cont_spec in Hone. simpl Pos.switch_Eq in Hone.
      assert (Hm : Z.pos m = 4503599627370496).
      { assert (Hlo : 4503599627370496 <= Z.pos m) by (apply Hm52; lia).
        clear - Hlo Hone. revert Hone.
        destruct (Pos.compare_spec m 4503599627370496) as [E | L | G];
          [intros _; now rewrite E
          | intros _; apply Pos2Z.pos_lt_pos in L; lia
          | intros Hf; discriminate Hf]. }
      rewrite Hm in Hnear. change (2 ^ (- -52)) with 4503599627370496 in Hnear.
      clear - Hnear HX Hb. lia.
    + (* exponent below -53: the float is below one half *)
      split; [| intros _; discriminate].
      intros Hge. exfalso.
      assert (HP : 18014398509481984 <= 2 ^ (- e)).
      { change 18014398509481984 with (2 ^ 54). apply Z.pow_le_mono_r; lia. }
      assert (HaP : a * 18014398509481984 <= a * 2 ^ (- e))
        by (apply Z.mul_le_mono_nonneg_l; lia).
      assert (HWb : Z.pos m * b <= 9007199254740991 * b)
        by (apply Z.mul_le_mono_nonneg_r; lia).
      lia.
Qed.

(** The ratio of two counters against the three thresholds. *)
Lemma ratio_thresholds (h mi : Z) :
  0 <= h -> 0 <= mi -> 0 < h + mi ->
  exists r,
    ratio_of h mi = Ok r /\
    (9 * (h + mi) <= 10 * h -> PyFloat.geb r PyFloat.lit_0_9 = true) /\
    (7 * (h + mi) <= 10 * h -> PyFloat.geb r PyFloat.lit_0_7 = true) /\
    (5 * (h + mi) <= 10 * h -> PyFloat.geb r PyFloat.lit_0_5 = true) /\
    (h + mi < 2 ^ 49 ->
       (PyFloat.geb r PyFloat.lit_0_9 = true -> 9 * (h + mi) <= 10 * h) /\
       (PyFloat.geb r PyFloat.lit_0_7 = true -> 7 * (h + mi) <= 10 * h) /\
       (PyFloat.geb r PyFloat.lit_0_5 = true -> 5 * (h + mi) <= 10 * h)).
Proof.
  intros Hh Hmi Ht.
  destruct (PyFloatFacts.truediv_unit_interval h (h + mi) ltac:(lia) Ht)
    as [r [Hr [_ [Hone Hnear]]]].
  exists r. split.
  { unfold ratio_of. destruct (Z.ltb_spec 0 (h + mi)); [exact Hr | lia]. }
  assert (Hrange : 0 <= h <= h + mi) by lia.
  destruct (geb_threshold_exact 9 8106479329266893 h (h + mi) r
              ltac:(lia) ltac:(split; vm_compute; discriminate)
              Hrange Ht Hone Hnear) as [H9a H9b].
  destruct (geb_threshold_exact 7 6305039478318694 h (h + mi) r
              ltac:(lia) ltac:(split; vm_compute; discriminate)
              Hrange Ht Hone Hnear) as [H7a H7b].
  destruct (geb_threshold_exact 5 4503599627370496 h (h + mi) r
              ltac:(lia) ltac:(split; vm_compute; discriminate)
              Hrange Ht Hone Hnear) as [H5a H5b].
  repeat split; auto.
Qed.

(** The endpoint reports the tier and the recommendation of the ratio of the
    two counters. *)
Lemma cache_metrics_of_ratio (request : HttpRequest) (w : world) (r : PyFloat.float) :
  conn_fault w = None -> info_fault w = None ->
  ratio_of (stat w "keyspace_hits") (stat w "keyspace_misses") = Ok r ->
  exists w1 response,
    cache_metrics request w = (Ok response, w1) /\
    report_tier response = Some (JStr (performance r)) /\
    report_recommendation response = Some (JStr (recommendation r)).
Proof.
  intros Hc Hi Hr.
  destruct (get_redis_cache_metrics_run w r Hc Hi Hr) as [w1 Hrun].
  destruct (cache_metrics_payload request w w1 _ Hrun)
    as [response [Hv [_ [_ [_ [_ [_ [_ [_ [Ht Hrec]]]]]]]]]].
  exists w1, response. auto.
Qed.

(** X12: the report never understates the exact ratio, whatever the size of
    the counters: with hits / total at least 9/10 the tier is 'excellent',
    at least 7/10 it is 'excellent' or 'good' and the recommendation is the
    positive one, at least 5/10 it is not 'poor'. *)
Theorem report_never_understates (request : HttpRequest) (w : world) (h mi : Z) :
  conn_fault w = None -> info_fault w = None ->
  stat w "keyspace_hits" = h -> stat w "keyspace_misses" = mi ->
  0 <= h -> 0 <= mi -> 0 < h + mi ->
  exists w1 response tier advice,
    cache_metrics request w = (Ok response, w1) /\
    report_tier response = Some (JStr tier) /\
    report_recommendation response = Some (JStr advice) /\
    (9 * (h + mi) <= 10 * h -> tier = "excellent") /\
    (7 * (h + mi) <= 10 * h ->
       (tier = "excellent" \/ tier = "good") /\ advice = "Cache is working well!") /\
    (5 * (h + mi) <= 10 * h -> tier <> "poor").
Proof.
  intros Hc Hi Hsh Hsm Hh Hmi Ht.
  destruct (ratio_thresholds h mi Hh Hmi Ht) as [r [Hr [H9 [H7 [H5 _]]]]].
  destruct (cache_metrics_of_ratio request w r Hc Hi) as [w1 [response [Hv [Htier Hrec]]]];
    [rewrite Hsh, Hsm; exact Hr |].
  exists w1, response, (performance r), (recommendation r).
  split; [exact Hv |]. split; [exact Htier |]. split; [exact Hrec |].
  unfold performance, recommendation.
  split; [| split].
  - intros Hge. now rewrite (H9 Hge).
  - intros Hge. rewrite (H7 Hge).
    destruct (PyFloat.geb r PyFloat.lit_0_9); auto.
  - intros Hge. rewrite (H5 Hge).
    destruct (PyFloat.geb r PyFloat.lit_0_9);
      destruct (PyFloat.geb r PyFloat.lit_0_7); discriminate.
Qed.

Lemma report_never_understates_witness :
  exists w1 response,
    cache_metrics plain_request cold_world = (Ok response, w1) /\
    report_tier response = Some (JStr "excellent").
Proof.
  assert (H9 : 0 <= 9) by lia. assert (H1 : 0 <= 1) by lia.
  assert (Ht : 0 < 9 + 1) by lia.
  assert (Hge : 9 * (9 + 1) <= 10 * 9) by lia.
  destruct (report_never_understates plain_request cold_world 9 1
              eq_refl eq_refl eq_refl eq_refl H9 H1 Ht)
    as [w1 [response [tier [advice [Hv [Htier [_ [Hex _]]]]]]]].
  exists w1, response. split; [exact Hv |].
  rewrite Htier, (Hex Hge). reflexivity.
Defined.

(** X13: for counters whose total is below 2^49 the report is exact: the tier
    and the recommendation are those of the fraction hits / total compared
    with 9/10, 7/10 and 5/10, the rounding of the division never moving a
    ratio across a threshold. *)
Theorem report_exact_below_2_49 (request : HttpRequest) (w : world) (h mi : Z) :
  conn_fault w = None -> info_fault w = None ->
  stat w "keyspace_hits" = h -> stat w "keyspace_misses" = mi ->
  0 <= h -> 0 <= mi -> 0 < h + mi < 2 ^ 49 ->
  exists w1 response,
    cache_metrics request w = (Ok response, w1) /\
    report_tier response = Some (JStr (exact_tier h (h + mi))) /\
    report_recommendation response = Some (JStr (exact_recommendation h (h + mi))).
Proof.
  intros Hc Hi Hsh Hsm Hh Hmi [Ht Hsmall].
  destruct (ratio_thresholds h mi Hh Hmi Ht) as [r [Hr [H9 [H7 [H5 Hconv]]]]].
  destruct (Hconv Hsmall) as [H9' [H7' H5']].
  destruct (cache_metrics_of_ratio request w r Hc Hi) as [w1 [response [Hv [Htier Hrec]]]];
    [rewrite Hsh, Hsm; exact Hr |].
  exists w1, response. split; [exact Hv |].
  assert (E9 : PyFloat.geb r PyFloat.lit_0_9 = (9 * (h + mi) <=? 10 * h)).
  { destruct (Z.leb_spec (9 * (h + mi)) (10 * h)) as [Hle | Hgt]; [now apply H9 |].
    destruct (PyFloat.geb r PyFloat.lit_0_9); [| reflexivity].
    specialize (H9' eq_refl). lia. }
  assert (E7 : PyFloat.geb r PyFloat.lit_0_7 = (7 * (h + mi) <=? 10 * h)).
  { destruct (Z.leb_spec (7 * (h + mi)) (10 * h)) as [Hle | Hgt]; [now apply H7 |].
    destruct (PyFloat.geb r PyFloat.lit_0_7); [| reflexivity].
    specialize (H7' eq_refl). lia. }
  assert (E5 : PyFloat.geb r PyFloat.lit_0_5 = (5 * (h + mi) <=? 10 * h)).
  { destruct (Z.leb_spec (5 * (h + mi)) (10 * h)) as [Hle | Hgt]; [now apply H5 |].
    destruct (PyFloat.geb r PyFloat.lit_0_5); [| reflexivity].
    specialize (H5' eq_refl). lia. }
  rewrite Htier, Hrec. unfold performance, recommendation, exact_tier,
    exact_recommendation. rewrite E9, E7, E5. split; reflexivity.
Qed.

Lemma report_exact_below_2_49_witness :
  exists w1 response,
    cache_metrics plain_request cold_world = (Ok response, w1) /\
    report_tier response = Some (JStr "excellent") /\
    report_recommendation response = Some (JStr "Cache is working well!").
Proof.
  assert (H9 : 0 <= 9) by lia. assert (H1 : 0 <= 1) by lia.
  assert (Ht : 0 < 9 + 1 < 2 ^ 49) by (split; reflexivity).
  destruct (report_exact_below_2_49 plain_request cold_world 9 1
              eq_refl eq_refl eq_refl eq_refl H9 H1 Ht)
    as [w1 [response [Hv [Htier Hrec]]]].
  exists w1, response. split; [exact Hv |]. split; [exact Htier | exact Hrec].
Defined.

(** Beyond that size the rounding can lift a ratio just below a threshold
    onto it. *)
Example report_rounds_up_large_counters :
  tier_of_counters 899999999999999999 100000000000000001 = Some "excellent"%string /\
  exact_tier 899999999999999999 1000000000000000000 = "good"%string.
Proof. split; vm_compute; reflexivity. Qed.

(** ** Resetting the statistics *)

Ltac run_reset :=
  unfold reset_redis_cache_stats, redis_flushdb, redis_config_resetstat; run_M.

(** X14: the reset never raises, and it answers True exactly when the
    connection, the flush and the reset of the counters all succeed. *)
Theorem reset_true_iff
    (flush_fault resetstat_fault : option exn) (resettable : string -> bool)
    (w : world) :
  exists b w',
    reset_redis_cache_stats flush_fault resetstat_fault resettable w = (Ok b, w') /\
    (b = true <->
     conn_fault w = None /\ flush_fault = None /\ resetstat_fault = None).
Proof.
  run_reset.
  destruct (conn_fault w) as [e|]; simpl.
  { eexists. eexists. split; [reflexivity |].
    split; [discriminate | intros [H _]; discriminate]. }
  destruct flush_fault as [e|]; simpl.
  { eexists. eexists. split; [reflexivity |].
    split; [discriminate | intros [_ [H _]]; discriminate]. }
  destruct resetstat_fault as [e|]; simpl.
  { eexists. eexists. split; [reflexivity |].
    split; [discriminate | intros [_ [_ H]]; discriminate]. }
  eexists. eexists. split; [reflexivity |]. split; auto.
Qed.

Lemma stat_after_reset (resettable : string -> bool) (stats : gmap string Z)
    (key : string) :
  resettable key = true ->
  dict_get (map_imap (fun key n => Some (if resettable key then 0 else n)) stats)
           key 0 = 0.
Proof.
  intros Hres. unfold dict_get. rewrite map_lookup_imap.
  destruct (stats !! key) as [n|]; simpl; [rewrite Hres |]; reflexivity.
Qed.

(** X15: after a successful reset the cache holds nothing and the two
    counters read zero: the next read of the collection is a miss that
    queries the backing store once and returns the table, and the next
    snapshot is all zeros. *)
Theorem reset_clears_cache_and_counters (resettable : string -> bool) (w : world) :
  conn_fault w = None ->
  resettable "keyspace_hits" = true ->
  resettable "keyspace_misses" = true ->
  exists w',
    reset_redis_cache_stats None None resettable w = (Ok true, w') /\
    cache_store w' = ∅ /\
    table w' = table w /\
    stat w' "keyspace_hits" = 0 /\ stat w' "keyspace_misses" = 0 /\
    (cache_fault w = None -> db_fault w = None ->
     exists w'',
       get_all_properties w' = (Ok (PyList (table w)), w'') /\
       db_queries (since w' w'') = 1%nat) /\
    (info_fault w = None ->
     exists w'',
       get_redis_cache_metrics w' =
         (Ok (Some {| hits := 0; misses := 0; total_requests := 0;
                      hit_ratio := PyFloat.zero;
                      hit_ratio_percent := PyFloat.zero |}), w'')).
Proof.
  intros Hc Hh Hm. run_reset. rewrite Hc. simpl.
  eexists. split; [reflexivity |].
  match goal with |- cache_store ?x = _ /\ _ => set (w' := x) end.
  assert (Hsh : stat w' "keyspace_hits" = 0) by (apply stat_after_reset; exact Hh).
  assert (Hsm : stat w' "keyspace_misses" = 0) by (apply stat_after_reset; exact Hm).
  split; [reflexivity |]. split; [reflexivity |].
  split; [exact Hsh |]. split; [exact Hsm |]. split.
  - intros Hcf Hdb.
    assert (Hmiss : cache_lookup "all_properties" w' = PyNone).
    { apply cache_lookup_deleted. apply lookup_empty. }
    eexists. split; [apply (get_all_properties_miss w' Hcf Hmiss Hdb) |].
    erewrite since_app by trace_eq. reflexivity.
  - intros Hi.
    destruct (get_redis_cache_metrics_run w' PyFloat.zero Hc Hi) as [w'' Hrun];
      [rewrite Hsh, Hsm; reflexivity |].
    rewrite Hsh, Hsm in Hrun. exists w''. exact Hrun.
Qed.

Lemma reset_clears_cache_and_counters_witness :
  exists w' w'',
    reset_redis_cache_stats None None counters_only shared_cache_world = (Ok true, w') /\
    cache_store w' = ∅ /\
    stat w' "uptime_in_seconds" = 86400 /\
    get_all_properties w' = (Ok (PyList [villa]), w'').
Proof.
  destruct (reset_clears_cache_and_counters counters_only shared_cache_world
              eq_refl eq_refl eq_refl)
    as [w' [Hrun [Hst [_ [_ [_ [Hread _]]]]]]].
  destruct (Hread eq_refl eq_refl) as [w'' [Hget _]].
  exists w', w''. split; [exact Hrun |]. split; [exact Hst |].
  split; [| exact Hget].
  assert (Hw : w' = snd (reset_redis_cache_stats None None counters_only
                           shared_cache_world)) by (rewrite Hrun; reflexivity).
  rewrite Hw. vm_compute. reflexivity.
Defined.

(** X16: the reset is not atomic. When the connection or the flush fails the
    answer is False and nothing has changed; when the flush succeeds and the
    reset of the counters fails the answer is False as well, but the cache has
    been emptied all the same. *)
Theorem reset_failure_modes
    (flush_fault resetstat_fault : option exn) (resettable : string -> bool)
    (w : world) (e : exn) :
  (conn_fault w = Some e \/ (conn_fault w = None /\ flush_fault = Some e) ->
   exists w',
     reset_redis_cache_stats flush_fault resetstat_fault resettable w = (Ok false, w') /\
     cache_store w' = cache_store w /\ redis_stats w' = redis_stats w /\
     In (Stdout ("Error resetting cache stats: " +:+ str_exn e)) (since w w')) /\
  (conn_fault w = None -> flush_fault = None -> resetstat_fault = Some e ->
   exists w',
     reset_redis_cache_stats flush_fault resetstat_fault resettable w = (Ok false, w') /\
     cache_store w' = ∅ /\ redis_stats w' = redis_stats w /\
     In (Stdout ("Error resetting cache stats: " +:+ str_exn e)) (since w w')).
Proof.
  split.
  - intros [Hc | [Hc Hf]]; run_reset; rewrite Hc; simpl; [| rewrite Hf; simpl];
      (eexists; split; [reflexivity |]; split; [reflexivity |];
       split; [reflexivity |]; erewrite since_app by trace_eq; simpl; tauto).
  - intros Hc Hf Hr. run_reset. rewrite Hc. simpl. rewrite Hf, Hr. simpl.
    eexists. split; [reflexivity |]. split; [reflexivity |].
    split; [reflexivity |]. erewrite since_app by trace_eq. simpl. tauto.
Qed.

Lemma reset_failure_modes_witness :
  exists w',
    reset_redis_cache_stats None (Some refused) counters_only shared_cache_world
      = (Ok false, w') /\
    cache_store w' = ∅.
Proof.
  destruct (proj2 (reset_failure_modes None (Some refused) counters_only
                     shared_cache_world refused) eq_refl eq_refl eq_refl)
    as [w' [Hrun [Hst _]]].
  exists w'. split; [exact Hrun | exact Hst].
Defined.

(** ** The listing view *)

Section ListingFacts.

Variable float_of_decimal : Z -> PyFloat.float.
Variable isoformat : Z -> string.

(** The loop builds one dictionary per property, in the order of the list. *)
Lemma collect_properties_map (rows : list Property) :
  collect_properties float_of_decimal isoformat rows = map (property_to_dict float_of_decimal isoformat) rows.
Proof.
  unfold collect_properties.
  assert (H : forall acc,
            fold_left (fun properties_data prop => properties_data ++ [(property_to_dict float_of_decimal isoformat) prop])
                      rows acc = acc ++ map (property_to_dict float_of_decimal isoformat) rows).
  { induction rows as [| p rest IH]; intros acc; simpl.
    - now rewrite app_nil_r.
    - rewrite IH, <- app_assoc. reflexivity. }
  apply (H []).
Qed.

(** X17: when the accessor returns a list and the request asks for
    [format=json], the view answers with one dictionary per property, in the
    order of the list and with the fields of each, and with a count equal to
    the number of properties; it changes nothing beyond what the accessor
    did. *)
Theorem property_list_json (request : HttpRequest) (w w' : world)
    (rows : list Property) :
  get_all_properties w = (Ok (PyList rows), w') ->
  GET request !! "format" = Some "json" ->
  property_list float_of_decimal isoformat request w =
    (Responded (JsonListing (map (property_to_dict float_of_decimal isoformat) rows) (length rows)), w') /\
  map pd_id (map (property_to_dict float_of_decimal isoformat) rows) = map id rows /\
  map pd_title (map (property_to_dict float_of_decimal isoformat) rows) = map title rows.
Proof.
  intros Hrun Hfmt. unfold property_list. rewrite Hrun.
  rewrite bool_decide_eq_true_2 by exact Hfmt.
  rewrite collect_properties_map, length_map.
  split; [reflexivity |].
  split; rewrite map_map; reflexivity.
Qed.

(** X18: only the exact value "json" of the parameter [format] selects the
    JSON answer. Without the parameter, or with any other value, a list is
    handed to the template 'properties/property_list.html' as it is, with a
    total count equal to its length. *)
Theorem property_list_html (request : HttpRequest) (w w' : world)
    (rows : list Property) :
  get_all_properties w = (Ok (PyList rows), w') ->
  GET request !! "format" <> Some "json" ->
  property_list float_of_decimal isoformat request w =
    (Responded (HtmlListing "properties/property_list.html" (PyList rows)
                            (length rows)), w').
Proof.
  intros Hrun Hfmt. unfold property_list. rewrite Hrun.
  rewrite bool_decide_eq_false_2 by exact Hfmt. reflexivity.
Qed.

(** X19: the view handles no error. A failure of the cache read, or of the
    query on a miss, reaches the caller of the view, whatever the format; and
    a cached value that is an integer makes the view fail with a TypeError in
    both formats. *)
Theorem property_list_failures (request : HttpRequest) (w : world) (e : exn) :
  (cache_fault w = Some e -> fst (property_list float_of_decimal isoformat request w) = Failed (Collaborator e)) /\
  (fst (cache_get "all_properties" w) = Ok PyNone -> db_fault w = Some e ->
   fst (property_list float_of_decimal isoformat request w) = Failed (Collaborator e) /\
   cache_store (snd (property_list float_of_decimal isoformat request w)) = cache_store w) /\
  (forall n, fst (cache_get "all_properties" w) = Ok (PyInt n) ->
   exists msg, fst (property_list float_of_decimal isoformat request w) = Failed (TypeError msg)).
Proof.
  split; [| split].
  - intros Hc. unfold property_list.
    destruct (get_all_properties_cases w)
      as [[e' [Hc' ->]] | [[v [Hc' _]] | [[e' [Hc' _]] | [Hc' _]]]];
      try congruence.
    simpl. congruence.
  - intros Hget Hdb. apply cache_get_Ok in Hget as [Hc Hmiss].
    unfold property_list.
    destruct (get_all_properties_cases w)
      as [[e' [Hc' _]] | [[v [_ [Hv [Hne _]]]] | [[e' [_ [_ [Hdb' ->]]]] | [_ [_ [Hdb' _]]]]]];
      try congruence.
    simpl. split; [congruence | reflexivity].
  - intros n Hget. apply cache_get_Ok in Hget as [Hc Hv].
    unfold property_list.
    rewrite (get_all_properties_hit w (PyInt n) Hc Hv) by discriminate.
    destruct (bool_decide (GET request !! "format" = Some "json")); simpl; eauto.
Qed.

(** X20: two requests for the JSON listing, the second within 3600 seconds of
    a first one that found the cache empty: both get the same listing, that of
    the table at the first request, and the backing store has been queried
    once in all. *)
Theorem property_list_twice (request : HttpRequest) (w : world) (dt : Z) :
  fst (cache_get "all_properties" w) = Ok PyNone ->
  db_fault w = None ->
  GET request !! "format" = Some "json" ->
  0 <= dt < 3600 ->
  exists w1 w2,
    property_list float_of_decimal isoformat request w =
      (Responded (JsonListing (map (property_to_dict float_of_decimal isoformat) (table w)) (length (table w))), w1) /\
    property_list float_of_decimal isoformat request (tick dt w1) =
      (Responded (JsonListing (map (property_to_dict float_of_decimal isoformat) (table w)) (length (table w))), w2) /\
    db_queries (since w w2) = 1%nat.
Proof.
  intros Hget Hdb Hfmt Hdt. apply cache_get_Ok in Hget as [Hc Hmiss].
  pose proof (get_all_properties_miss w Hc Hmiss Hdb) as Hrun1.
  match type of Hrun1 with _ = (_, ?x) => set (w1 := x) in * end.
  assert (Hlook : cache_lookup "all_properties" (tick dt w1) = PyList (table w)).
  { unfold cache_lookup. simpl. rewrite lookup_insert_eq. simpl.
    destruct (Z.ltb_spec (now w + dt) (now w + 3600)); [reflexivity | lia]. }
  pose proof (get_all_properties_hit (tick dt w1) _ Hc Hlook ltac:(discriminate))
    as Hrun2.
  match type of Hrun2 with _ = (_, ?x) => set (w2 := x) in * end.
  exists w1, w2.
  split; [exact (proj1 (property_list_json request w w1 _ Hrun1 Hfmt)) |].
  split; [exact (proj1 (property_list_json request _ w2 _ Hrun2 Hfmt)) |].
  erewrite since_app by trace_eq. reflexivity.
Qed.

End ListingFacts.

Lemma property_list_json_witness :
  exists w',
    property_list (fun _ => PyFloat.zero) (fun _ => ""%string) json_request cold_world
      = (Responded
           (JsonListing
              (map (property_to_dict (fun _ => PyFloat.zero) (fun _ => ""%string))
                   [villa; studio]) 2), w').
Proof.
  assert (Hrun : get_all_properties cold_world =
                 (Ok (PyList [villa; studio]), snd (get_all_properties cold_world)))
    by (vm_compute; reflexivity).
  eexists.
  exact (proj1 (property_list_json (fun _ => PyFloat.zero) (fun _ => ""%string)
                  json_request cold_world _ [villa; studio] Hrun eq_refl)).
Defined.

Lemma property_list_html_witness :
  exists w',
    property_list (fun _ => PyFloat.zero) (fun _ => ""%string) plain_request warm_world
      = (Responded (HtmlListing "properties/property_list.html" (PyList [villa]) 1), w').
Proof.
  assert (Hrun : get_all_properties warm_world =
                 (Ok (PyList [villa]), snd (get_all_properties warm_world)))
    by (vm_compute; reflexivity).
  assert (Hfmt : GET plain_request !! "format" <> Some "json") by discriminate.
  eexists.
  exact (property_list_html (fun _ => PyFloat.zero) (fun _ => ""%string)
           plain_request warm_world _ [villa] Hrun Hfmt).
Defined.

Lemma property_list_failures_witness :
  fst (property_list (fun _ => PyFloat.zero) (fun _ => ""%string)
         json_request broken_db_world) = Failed (Collaborator db_down).
Proof.
  exact (proj1 (proj1 (proj2 (property_list_failures
                  (fun _ => PyFloat.zero) (fun _ => ""%string)
                  json_request broken_db_world db_down)) eq_refl eq_refl)).
Defined.

Lemma property_list_twice_witness :
  exists w1 w2,
    property_list (fun _ => PyFloat.zero) (fun _ => ""%string) json_request cold_world
      = (Responded
           (JsonListing
              (map (property_to_dict (fun _ => PyFloat.zero) (fun _ => ""%string))
                   [villa; studio]) 2), w1) /\
    db_queries (since cold_world w2) = 1%nat.
Proof.
  assert (Hdt : 0 <= 600 < 3600) by lia.
  destruct (property_list_twice (fun _ => PyFloat.zero) (fun _ => ""%string)
              json_request cold_world 600 eq_refl eq_refl eq_refl Hdt)
    as [w1 [w2 [H1 [_ Hq]]]].
  exists w1, w2. split; [exact H1 | exact Hq].
Defined.
